(** * Training weather dashboard: the decision core of [Streamlit_Weather.py]

    A shallow embedding of the pure helpers of the dashboard (unit
    conversion, wind chill, WBGT estimate, heat category, condition
    interpreter, uniform recommendations, final training decision) and the
    properties its specification states about them.

    Numbers.  The Python code computes on IEEE binary64 floats.  The
    top-level development reads every float as the real number it denotes
    and every decimal literal as the decimal it spells ([81.9] is 819/10),
    so arithmetic is exact; this is the reading under which the
    specification speaks of "every real" and of identities that are "exact
    over rational arithmetic".  Rounding is not modelled there.  The module
    [Binary64] embeds two comparison-only helpers a second time on Rocq's
    primitive binary64 floats, where the literals are rounded as Python
    rounds them and where NaN exists.

    Strings.  A Python [str] is a [string] of bytes (its UTF-8 encoding);
    [lower] folds the ASCII letters, which is all the ASCII keywords of the
    condition interpreter can observe.

    Callers.  Besides the helpers, the development embeds what uses them:
    the status icon, the block of [main] and [analyze_training_dates] that
    analyses one observation, and the daily aggregation of
    [fetch_forecast] from the parsed response on.  Network access, date
    formatting and the iteration order of a set stay outside; the last two
    are parameters. *)

From Stdlib Require Import Floats.
From Stdlib Require Import Bool ZArith List.
From Stdlib Require Import Ascii String.
From Stdlib Require Import Reals Lra Lia.
From Stdlib Require Import Sorted.
Import ListNotations.

Set Warnings "-inexact-float".

Open Scope string_scope.
Open Scope R_scope.

(* ================================================================= *)
(** ** Python primitives used by the helpers *)

(** Comparisons of two numbers, as booleans. *)
Definition Rltb (x y : R) : bool := if Rlt_dec x y then true else false.
Definition Rleb (x y : R) : bool := if Rle_dec x y then true else false.

Infix "<?" := Rltb : R_scope.
Infix "<=?" := Rleb : R_scope.

(** [min(a, b)] and [max(a, b)]: the first argument is kept unless the
    second is strictly smaller (resp. strictly larger). *)
Definition py_min (a b : R) : R := if b <? a then b else a.
Definition py_max (a b : R) : R := if a <? b then b else a.

(** [x ** y] for a base [x >= 0] and an exponent [y > 0], the only uses in
    the source: [0.0 ** y] is [0.0], and a positive base is raised by the
    real power function. *)
Definition py_pow (x y : R) : R :=
  if Req_dec_T x 0 then 0 else Rpower x y.

(** Truthiness of an optional string: [None] and [""] are false. *)
Definition truthy (o : option string) : bool :=
  match o with
  | None => false
  | Some s => negb (s =? "")%string
  end.

(** [cond_text or ""]. *)
Definition or_empty (o : option string) : string :=
  if truthy o then match o with Some s => s | None => "" end else "".

(** [str.lower()] on ASCII letters. *)
Definition lower_ascii (c : ascii) : ascii :=
  let n := nat_of_ascii c in
  if (65 <=? n)%nat && (n <=? 90)%nat then ascii_of_nat (n + 32) else c.

Fixpoint lower (s : string) : string :=
  match s with
  | EmptyString => EmptyString
  | String c t => String (lower_ascii c) (lower t)
  end.

(** [needle in hay]: [needle] occurs as a contiguous substring of [hay]. *)
Fixpoint str_in (needle hay : string) : bool :=
  prefix needle hay ||
  match hay with
  | EmptyString => false
  | String _ t => str_in needle t
  end.

(** What a call can do: return a value or raise. *)
Inductive exn : Set := TypeError | ValueError | OverflowError.

Inductive outcome (A : Type) : Type :=
| Returns (a : A)
| Raises (e : exn).
Arguments Returns {A} a.
Arguments Raises {A} e.

(** The Python values a caller can hand to a helper that takes "anything":
    [PyOther] stands for every object that has no conversion to float
    (a list, a dict, ...). *)
Inductive pyobj : Type :=
| PyNone
| PyBool (b : bool)
| PyInt (z : Z)
| PyFloat (r : R)
| PyStr (s : string)
| PyOther.

(** An [int] converts to a float when it rounds to a finite binary64,
    that is below [2^1024 - 2^970] in absolute value. *)
Definition float_int_bound : Z := (2 ^ 1024 - 2 ^ 970)%Z.

Section Builtins.

(** The float-literal parser behind [float(str)]: [None] when the text
    is not a number. *)
Variable parse_float : string -> option R.

(** The builtin [float(x)]. *)
Definition py_float (x : pyobj) : outcome R :=
  match x with
  | PyFloat r => Returns r
  | PyInt z =>
      if (Z.abs z <? float_int_bound)%Z then Returns (IZR z)
      else Raises OverflowError
  | PyBool b => Returns (if b then 1 else 0)
  | PyStr s =>
      match parse_float s with
      | Some r => Returns r
      | None => Raises ValueError
      end
  | PyNone | PyOther => Raises TypeError
  end.

End Builtins.

(* ================================================================= *)
(** ** The helpers of the source, in source order *)

Definition f_to_c (Tf : R) : R := (Tf - 32.0) * 5.0 / 9.0.

Definition c_to_f (Tc : R) : R := Tc * 9.0 / 5.0 + 32.0.

Definition wind_chill_f (Tf wind_mph : R) : option R :=
  if (50 <? Tf) || (wind_mph <=? 3) then None
  else Some (35.74 + 0.6215 * Tf - 35.75 * (py_pow wind_mph 0.16)
             + 0.4275 * Tf * (py_pow wind_mph 0.16)).

Definition approx_natural_wet_bulb (Tc rh : R) : R :=
  let rh := py_max 0.0 (py_min 100.0 rh) in
  Tc * atan (0.151977 * sqrt (rh + 8.313659)) +
  atan (Tc + rh) - atan (rh - 1.676331) +
  0.00391838 * (py_pow rh 1.5) * atan (0.023101 * rh) -
  4.686035.

Definition approx_wbgt (Tc rh : R) (sunny : bool) (globe_offset_c : R)
  : R * R * R :=
  let Tw := approx_natural_wet_bulb Tc rh in
  let Tg := if sunny then Tc + globe_offset_c else Tc in
  let wbgt_c := 0.7 * Tw + 0.3 * Tg in
  (wbgt_c, Tw, Tg).

Definition heat_category_from_wbgt_f (wbgt_f : R) : string * Z :=
  if wbgt_f <? 78 then ("Below White", 1%Z)
  else if (78 <=? wbgt_f) && (wbgt_f <=? 81.9) then ("White (Cat 1)", 1%Z)
  else if (82 <=? wbgt_f) && (wbgt_f <=? 84.9) then ("Green (Cat 2)", 2%Z)
  else if (85 <=? wbgt_f) && (wbgt_f <=? 87.9) then ("Yellow (Cat 3)", 3%Z)
  else if (88 <=? wbgt_f) && (wbgt_f <=? 89.9) then ("Red (Cat 4)", 4%Z)
  else ("Black (Cat 5)", 5%Z).

Definition interpret_condition (cond_text : option string)
  : string * string * option string :=
  let c := lower (or_empty cond_text) in
  if str_in "thunder" c || str_in "storm" c then
    ("extreme", "Thunderstorm / lightning risk", Some "NO OUTDOOR TRAINING")
  else if str_in "freezing rain" c || (str_in "freezing" c && str_in "rain" c) then
    ("extreme", "Freezing rain / ice risk", Some "NO OUTDOOR TRAINING")
  else if str_in "sleet" c || str_in "ice" c || str_in "icy" c then
    ("extreme", "Icy conditions", Some "NO OUTDOOR TRAINING")
  else if str_in "blizzard" c then
    ("extreme", "Blizzard / near-zero visibility", Some "NO OUTDOOR_TRAINING")
  else if str_in "heavy snow" c then
    ("high", "Heavy snow — visibility & slip risk", None)
  else if str_in "snow" c || str_in "flurr" c then
    ("moderate", "Snow present — traction/visibility caution", None)
  else if str_in "heavy rain" c || str_in "torrential" c then
    ("high", "Heavy rain — hypothermia & slip risk", None)
  else if str_in "rain" c || str_in "shower" c then
    ("moderate", "Rain — wet/hypothermia risk", None)
  else if str_in "drizzle" c || str_in "light rain" c then
    ("low", "Light rain / drizzle", None)
  else if str_in "fog" c || str_in "mist" c then
    ("moderate", "Fog / reduced visibility", None)
  else ("low", "No precipitation hazards", None).

Definition recommend_uniform_option_a (temp_f : R) (wind_chill_f : option R)
    (heat_cat_num : option Z) (wbgt_applicable : bool) (precip_level : string)
  : string * Z :=
  let cold_or_standard :=
    if (temp_f <=? 50) && (33 <? temp_f) then
      ("OCP + fleece optional; monitor wind and wetness.", 1%Z)
    else ("Standard OCP/PT uniform", 0%Z) in
  match wbgt_applicable, heat_cat_num with
  | true, Some n =>
      if (5 <=? n)%Z then
        ("Light clothing only; no armor; full hydration and move indoors", 3%Z)
      else if (n =? 4)%Z then
        ("Light OCP/PT, reduce load, hydrate frequently", 2%Z)
      else if (n =? 3)%Z then
        ("OCP, consider modified load and frequent water breaks", 1%Z)
      else ("Standard OCP/PT uniform", 0%Z)
  | _, _ =>
      match wind_chill_f with
      | Some wc =>
          if wc <=? -20 then
            ("Arctic clothing / extreme cold gear. No exposed skin. No outdoor training.", 3%Z)
          else if wc <=? 0 then
            ("Parka + layered clothing + gloves + balaclava. Move indoors for prolonged training.", 2%Z)
          else if wc <=? 20 then
            ("OCP + parka + gloves + warm layers. Limit prolonged exposed activities.", 2%Z)
          else if wc <=? 32 then
            ("OCP + fleece + gloves recommended.", 1%Z)
          else cold_or_standard
      | None => cold_or_standard
      end
  end.

(** The five strings of the temperature bands of [recommend_pt_uniform]. *)
Definition pt_band_strings : list string :=
  [ "APFU Short-sleeve + shorts";
    "APFU Short-sleeve shirt + APFU shorts";
    "APFU Short-sleeve + APFU Long-sleeve + APFU shorts";
    "APFU Short-sleeve + APFU Long-sleeve + APFU Pants + APFU Jacket + Fleece Cap";
    "APFU Short-sleeve + APFU Long-sleeve + APFU Pants + APFU Jacket + Fleece Cap + Gloves" ].

Section PtUniform.

Variable parse_float : string -> option R.

Definition recommend_pt_uniform (temp_f : pyobj) : string :=
  match py_float parse_float temp_f with
  | Raises _ => "Standard PT uniform"
  | Returns t =>
      if 80 <? t then "APFU Short-sleeve + shorts"
      else if (60 <=? t) && (t <=? 80) then
        "APFU Short-sleeve shirt + APFU shorts"
      else if (40 <=? t) && (t <=? 59) then
        "APFU Short-sleeve + APFU Long-sleeve + APFU shorts"
      else if (20 <=? t) && (t <=? 39) then
        "APFU Short-sleeve + APFU Long-sleeve + APFU Pants + APFU Jacket + Fleece Cap"
      else
        "APFU Short-sleeve + APFU Long-sleeve + APFU Pants + APFU Jacket + Fleece Cap + Gloves"
  end.

End PtUniform.

Definition final_training_decision (temp_f : R) (wind_chill_f : option R)
    (heat_cat_num : option Z) (wbgt_applicable : bool)
    (precip_override : option string) (precip_level : string) : string :=
  let cold (bound : R) : bool :=
    match wind_chill_f with
    | Some wc => wc <=? bound
    | None => false
    end in
  if truthy precip_override then
    match precip_override with Some s => s | None => "" end
  else if cold (-20) then "NO OUTDOOR TRAINING — EXTREME COLD"
  else if cold 0 then "MOVE TRAINING INDOORS / HIGH COLD RISK"
  else if cold 20 then
    "LIMIT OUTDOOR TRAINING / USE INDOORS WHEN POSSIBLE (COLD CAUTION)"
  else if (precip_level =? "high")%string then
    "LIMIT OUTDOOR TRAINING / USE INDOORS WHEN POSSIBLE (PRECIPITATION)"
  else
    match wbgt_applicable, heat_cat_num with
    | true, Some n =>
        if (5 <=? n)%Z then "NO OUTDOOR TRAINING — EXTREME HEAT (BLACK FLAG)"
        else if (n =? 4)%Z then
          "LIMIT OUTDOOR TRAINING / USE INDOORS WHEN POSSIBLE (HEAT)"
        else if (n =? 3)%Z then "TRAIN OUTDOORS WITH CAUTION (HEAT)"
        else "TRAIN OUTDOORS (NO RESTRICTIONS)"
    | _, _ => "TRAIN OUTDOORS (NO RESTRICTIONS)"
    end.

(* ================================================================= *)
(** ** Comparison-only helpers on binary64 floats *)

Module Binary64.

Open Scope float_scope.

(** [heat_category_from_wbgt_f] with the comparisons and the literals of
    IEEE binary64, as the interpreter evaluates them. *)
Definition heat_category_from_wbgt_f (wbgt_f : float) : string * Z :=
  if wbgt_f <? 78 then ("Below White", 1%Z)
  else if (78 <=? wbgt_f) && (wbgt_f <=? 81.9) then ("White (Cat 1)", 1%Z)
  else if (82 <=? wbgt_f) && (wbgt_f <=? 84.9) then ("Green (Cat 2)", 2%Z)
  else if (85 <=? wbgt_f) && (wbgt_f <=? 87.9) then ("Yellow (Cat 3)", 3%Z)
  else if (88 <=? wbgt_f) && (wbgt_f <=? 89.9) then ("Red (Cat 4)", 4%Z)
  else ("Black (Cat 5)", 5%Z).

(** [recommend_pt_uniform] from the outcome of its [float(temp_f)] call
    on, so that the bands also see infinities and NaN. *)
Definition recommend_pt_uniform (converted : outcome float) : string :=
  match converted with
  | Raises _ => "Standard PT uniform"
  | Returns t =>
      if 80 <? t then "APFU Short-sleeve + shorts"
      else if (60 <=? t) && (t <=? 80) then
        "APFU Short-sleeve shirt + APFU shorts"
      else if (40 <=? t) && (t <=? 59) then
        "APFU Short-sleeve + APFU Long-sleeve + APFU shorts"
      else if (20 <=? t) && (t <=? 39) then
        "APFU Short-sleeve + APFU Long-sleeve + APFU Pants + APFU Jacket + Fleece Cap"
      else
        "APFU Short-sleeve + APFU Long-sleeve + APFU Pants + APFU Jacket + Fleece Cap + Gloves"
  end.

End Binary64.

(* ================================================================= *)
(** ** The callers: text case, status colour, per-observation analysis *)

(** [str.upper()] and [str.title()] on ASCII letters.  [title] is the
    loop of the interpreter: a letter that follows a letter is lowered,
    any other letter is raised. *)
Definition is_upper_ascii (c : ascii) : bool :=
  let n := nat_of_ascii c in (65 <=? n)%nat && (n <=? 90)%nat.

Definition is_lower_ascii (c : ascii) : bool :=
  let n := nat_of_ascii c in (97 <=? n)%nat && (n <=? 122)%nat.

Definition upper_ascii (c : ascii) : ascii :=
  if is_lower_ascii c then ascii_of_nat (nat_of_ascii c - 32) else c.

Fixpoint title_from (previous_is_cased : bool) (s : string) : string :=
  match s with
  | EmptyString => EmptyString
  | String c t =>
      String (if previous_is_cased then lower_ascii c else upper_ascii c)
             (title_from (is_upper_ascii c || is_lower_ascii c) t)
  end.

Definition title (s : string) : string := title_from false s.

Definition get_status_color (decision_text : string) : string :=
  if str_in "NO OUTDOOR" decision_text || str_in "MOVE" decision_text then
    "🔴"
  else if str_in "LIMIT" decision_text then "🟡"
  else "🟢".

Definition WBGT_CUTOFF_F : R := 50.

(** What [main] computes for one observation before it displays it. *)
Record analysis : Type := {
  wbgt_f_of : R;
  wc_of : option R;
  wbgt_applicable_of : bool;
  heat_label_of : string;
  heat_num_of : option Z;
  precip_level_of : string;
  cond_note_of : string;
  precip_override_of : option string;
  uniform_of : string;
  uniform_level_of : Z;
  final_dec_of : string;
  pt_uniform_of : string;
  status_icon_of : string
}.

Section Analysis.

Variable parse_float : string -> option R.

(** The block that the four tabs of [main] and [analyze_training_dates]
    repeat: from the temperature in both units, the humidity, the wind,
    the sunny flag and the condition text to every derived output.  The
    blocks differ in the label shown when the heat category does not
    apply, [cold_label]. *)
Definition observation_analysis (cold_label : string)
    (temp_f temp_c rh wind_mph : R) (sunny : bool) (weather_text : string)
  : analysis :=
  let '(wbgt_c, _, _) := approx_wbgt temp_c rh sunny 3.0 in
  let wbgt_f := c_to_f wbgt_c in
  let wc := wind_chill_f temp_f wind_mph in
  let wbgt_applicable := WBGT_CUTOFF_F <? temp_f in
  let '(heat_label, heat_num) :=
    if wbgt_applicable then
      let '(label, num) := heat_category_from_wbgt_f wbgt_f in
      (label, Some num)
    else (cold_label, None) in
  let '(precip_level, cond_note, precip_override) :=
    interpret_condition (Some weather_text) in
  let '(uniform, uniform_level) :=
    recommend_uniform_option_a temp_f wc heat_num wbgt_applicable
      precip_level in
  let final_dec :=
    final_training_decision temp_f wc heat_num wbgt_applicable
      precip_override precip_level in
  let pt_uniform := recommend_pt_uniform parse_float (PyFloat temp_f) in
  {| wbgt_f_of := wbgt_f;
     wc_of := wc;
     wbgt_applicable_of := wbgt_applicable;
     heat_label_of := heat_label;
     heat_num_of := heat_num;
     precip_level_of := precip_level;
     cond_note_of := cond_note;
     precip_override_of := precip_override;
     uniform_of := uniform;
     uniform_level_of := uniform_level;
     final_dec_of := final_dec;
     pt_uniform_of := pt_uniform;
     status_icon_of := get_status_color final_dec |}.

(** Tab 1, current conditions: sunny when the cloud cover is below 30. *)
Definition current_conditions_analysis
    (temp_f rh wind_mph clouds : R) (weather_text : string) : analysis :=
  observation_analysis "N/A (cold)" temp_f (f_to_c temp_f) rh wind_mph
    (clouds <? 30) weather_text.

(** Tabs 2 and 4, a forecast day: sunny when the larger of the two
    precipitation chances is below 30. *)
Definition forecast_day_analysis
    (avg_f avg_c rh_d wind_max chance_of_rain chance_of_snow : R)
    (cond : string) : analysis :=
  observation_analysis "Cold" avg_f avg_c rh_d wind_max
    (py_max chance_of_rain chance_of_snow <? 30) cond.

End Analysis.

(* ================================================================= *)
(** ** The daily aggregation of [fetch_forecast] *)

(** One entry of the provider's forecast list, with the fields the
    aggregation reads.  [item_rain_3h] is [None] when
    [item.get("rain", {}).get("3h", ...)] finds no value. *)
Record forecast_item : Type := {
  item_dt : Z;
  item_temp : R;
  item_humidity : R;
  item_wind : R;
  item_rain_3h : option R;
  item_snow_3h : option R;
  item_description : string
}.

(** The value kept per date while the list is read. *)
Record day_data : Type := {
  dd_temps : list R;
  dd_humidity : list R;
  dd_wind : list R;
  dd_rain : R;
  dd_snow : R;
  dd_conditions : list string
}.

(** One element of ["forecastday"]. *)
Record forecast_day : Type := {
  fd_date : string;
  fd_avgtemp_f : R;
  fd_avgtemp_c : R;
  fd_avghumidity : R;
  fd_maxwind_mph : R;
  fd_daily_chance_of_rain : R;
  fd_daily_chance_of_snow : R;
  fd_condition_text : string
}.

(** What the aggregation could raise: a missing dictionary key, a
    division by a zero length, [max] of an empty sequence. *)
Inductive forecast_exn : Set := KeyError | ZeroDivisionError | EmptySequence.

Definition result (A : Type) : Type := (forecast_exn + A)%type.

Definition bind {A B : Type} (r : result A) (k : A -> result B) : result B :=
  match r with
  | inl e => inl e
  | inr a => k a
  end.

Notation "x <- r ;; k" := (bind r (fun x => k))
  (at level 61, r at next level, right associativity).

(** A [dict] with string keys, in insertion order. *)
Definition dict (V : Type) : Type := list (string * V).

Fixpoint dict_get {V : Type} (k : string) (d : dict V) : option V :=
  match d with
  | [] => None
  | (k', v) :: t => if (k' =? k)%string then Some v else dict_get k t
  end.

Fixpoint dict_set {V : Type} (k : string) (v : V) (d : dict V) : dict V :=
  match d with
  | [] => [(k, v)]
  | (k', v') :: t =>
      if (k' =? k)%string then (k, v) :: t else (k', v') :: dict_set k v t
  end.

Definition dict_keys {V : Type} (d : dict V) : list string := List.map fst d.

(** [d[k]], which raises on a missing key. *)
Definition dict_item {V : Type} (k : string) (d : dict V) : result V :=
  match dict_get k d with
  | Some v => inr v
  | None => inl KeyError
  end.

(** [sorted(keys)] on strings, by insertion. *)
Fixpoint insert_sorted (k : string) (l : list string) : list string :=
  match l with
  | [] => [k]
  | x :: t => if (k <=? x)%string then k :: l else x :: insert_sorted k t
  end.

Definition py_sorted (l : list string) : list string :=
  List.fold_right insert_sorted [] l.

(** [l[:n]]: the first [n] elements, or all but the last [-n] when [n] is
    negative. *)
Definition py_slice_to {A : Type} (n : Z) (l : list A) : list A :=
  if (0 <=? n)%Z then firstn (Z.to_nat n) l
  else firstn (List.length l - Z.to_nat (- n)) l.

Definition py_sum (l : list R) : R := List.fold_left Rplus l 0.

(** [sum(l) / len(l)]. *)
Definition py_mean (l : list R) : result R :=
  match l with
  | [] => inl ZeroDivisionError
  | _ => inr (py_sum l / INR (List.length l))
  end.

(** [max(l)]: the first of the largest elements. *)
Definition py_max_list (l : list R) : result R :=
  match l with
  | [] => inl EmptySequence
  | x :: t => inr (List.fold_left py_max t x)
  end.

(** [max(l, key=f)]: the first element whose key is largest. *)
Definition py_max_by {A : Type} (key : A -> nat) (l : list A) : result A :=
  match l with
  | [] => inl EmptySequence
  | x :: t =>
      inr (List.fold_left
             (fun m y => if (key m <? key y)%nat then y else m) t x)
  end.

Definition empty_day : day_data :=
  {| dd_temps := []; dd_humidity := []; dd_wind := [];
     dd_rain := 0; dd_snow := 0; dd_conditions := [] |}.

Definition or_zero (o : option R) : R :=
  match o with Some x => x | None => 0 end.

(** The six updates of one day's value for one item. *)
Definition add_item (it : forecast_item) (d : day_data) : day_data :=
  {| dd_temps := dd_temps d ++ [item_temp it];
     dd_humidity := dd_humidity d ++ [item_humidity it];
     dd_wind := dd_wind d ++ [item_wind it];
     dd_rain := dd_rain d + or_zero (item_rain_3h it);
     dd_snow := dd_snow d + or_zero (item_snow_3h it);
     dd_conditions := dd_conditions d ++ [item_description it] |}.

Section FetchForecast.

(** The UTC calendar date of a timestamp, as ["%Y-%m-%d"]. *)
Variable date_key_of : Z -> string.

(** The order in which a [set] built from a list is iterated: some
    duplicate-free enumeration of the elements of the list. *)
Variable set_of : list string -> list string.

(** The body of the first loop, for one item. *)
Definition accumulate (daily_data : dict day_data) (item : forecast_item)
  : result (dict day_data) :=
  let date_key := date_key_of (item_dt item) in
  let daily_data :=
    match dict_get date_key daily_data with
    | None => dict_set date_key empty_day daily_data
    | Some _ => daily_data
    end in
  day <- dict_item date_key daily_data ;;
  inr (dict_set date_key (add_item item day) daily_data).

Fixpoint accumulate_all (daily_data : dict day_data)
    (items : list forecast_item) : result (dict day_data) :=
  match items with
  | [] => inr daily_data
  | item :: rest =>
      daily_data <- accumulate daily_data item ;;
      accumulate_all daily_data rest
  end.

(** The body of the second loop, for one date. *)
Definition summarize (daily_data : dict day_data) (date_key : string)
  : result forecast_day :=
  day_data <- dict_item date_key daily_data ;;
  avg_temp <- py_mean (dd_temps day_data) ;;
  avghumidity <- py_mean (dd_humidity day_data) ;;
  maxwind <- py_max_list (dd_wind day_data) ;;
  text <- py_max_by
            (count_occ string_dec (dd_conditions day_data))
            (set_of (dd_conditions day_data)) ;;
  inr {| fd_date := date_key;
         fd_avgtemp_f := avg_temp;
         fd_avgtemp_c := f_to_c avg_temp;
         fd_avghumidity := avghumidity;
         fd_maxwind_mph := maxwind;
         fd_daily_chance_of_rain := if 0 <? dd_rain day_data then 100 else 0;
         fd_daily_chance_of_snow := if 0 <? dd_snow day_data then 100 else 0;
         fd_condition_text := title text |}.

Fixpoint summarize_all (daily_data : dict day_data) (keys : list string)
  : result (list forecast_day) :=
  match keys with
  | [] => inr []
  | date_key :: rest =>
      day <- summarize daily_data date_key ;;
      days <- summarize_all daily_data rest ;;
      inr (day :: days)
  end.

(** [fetch_forecast] from the parsed list of the response on: the days
    of ["forecastday"]. *)
Definition fetch_forecast_days (items : list forecast_item) (days : Z)
  : result (list forecast_day) :=
  daily_data <- accumulate_all [] items ;;
  summarize_all daily_data
    (py_slice_to days (py_sorted (dict_keys daily_data))).

End FetchForecast.

(** The half-open table of the specification (section 4.4), against which
    the classifier of the source is compared. *)
Definition heat_category_table (wbgt_f : R) : string * Z :=
  if wbgt_f <? 78 then ("Below White", 1%Z)
  else if wbgt_f <? 82 then ("White (Cat 1)", 1%Z)
  else if wbgt_f <? 85 then ("Green (Cat 2)", 2%Z)
  else if wbgt_f <? 88 then ("Yellow (Cat 3)", 3%Z)
  else if wbgt_f <? 90 then ("Red (Cat 4)", 4%Z)
  else ("Black (Cat 5)", 5%Z).

(** The values the inclusive decimal upper bounds of the source leave
    between two bands. *)
Definition in_band_gap (x : R) : Prop :=
  81.9 < x < 82 \/ 84.9 < x < 85 \/ 87.9 < x < 88 \/ 89.9 < x < 90.

(** The humidity clamp as the specification writes it. *)
Definition clamp_rh (rh : R) : R := Rmax 0 (Rmin 100 rh).

(** An input is numeric when [float()] accepts it. *)
Definition numeric (parse_float : string -> option R) (x : pyobj) : Prop :=
  exists t, py_float parse_float x = Returns t.

(* ================================================================= *)
(** ** Comparisons *)

Lemma Rltb_lt x y : (x <? y) = true <-> x < y.
Proof. unfold Rltb; destruct (Rlt_dec x y); split; intros; easy. Qed.

Lemma Rltb_ge x y : (x <? y) = false <-> y <= x.
Proof.
  unfold Rltb; destruct (Rlt_dec x y); split; intros; try easy; lra.
Qed.

Lemma Rleb_le x y : (x <=? y) = true <-> x <= y.
Proof. unfold Rleb; destruct (Rle_dec x y); split; intros; easy. Qed.

Lemma Rleb_gt x y : (x <=? y) = false <-> y < x.
Proof.
  unfold Rleb; destruct (Rle_dec x y); split; intros; try easy; lra.
Qed.

(** Case analysis on every comparison of the goal, each branch keeping the
    order fact it stands for. *)
Ltac cases_on_order :=
  repeat match goal with
    | |- context [?a <? ?b] =>
        let H := fresh "Hlt" in
        destruct (a <? b) eqn:H;
        [apply Rltb_lt in H | apply Rltb_ge in H]
    | |- context [?a <=? ?b] =>
        let H := fresh "Hle" in
        destruct (a <=? b) eqn:H;
        [apply Rleb_le in H | apply Rleb_gt in H]
    end.

Ltac order_cases := cases_on_order; simpl; try reflexivity; try lra.

Lemma py_min_Rmin a b : py_min a b = Rmin a b.
Proof.
  unfold py_min, Rmin. destruct (Rle_dec a b); order_cases.
Qed.

Lemma py_max_Rmax a b : py_max a b = Rmax a b.
Proof.
  unfold py_max, Rmax. destruct (Rle_dec a b); order_cases.
Qed.

Lemma clamp_rh_range rh : 0 <= clamp_rh rh <= 100.
Proof.
  unfold clamp_rh, Rmax, Rmin.
  destruct (Rle_dec 100 rh); destruct (Rle_dec 0 _); lra.
Qed.

Lemma clamp_rh_fixed rh : 0 <= rh <= 100 -> clamp_rh rh = rh.
Proof.
  intros H. unfold clamp_rh, Rmax, Rmin.
  destruct (Rle_dec 100 rh); destruct (Rle_dec 0 _); lra.
Qed.

Lemma py_clamp_is_clamp_rh rh : py_max 0.0 (py_min 100.0 rh) = clamp_rh rh.
Proof.
  rewrite py_max_Rmax, py_min_Rmin. unfold clamp_rh.
  replace 0.0 with 0 by lra. replace 100.0 with 100 by lra. reflexivity.
Qed.

Lemma py_pow_pos x y : 0 < x -> py_pow x y = Rpower x y.
Proof.
  intros H. unfold py_pow. destruct (Req_dec_T x 0); [lra | reflexivity].
Qed.

(* ================================================================= *)
(** ** Unit conversion *)

(** C9. The two conversions are inverse to each other: converting to
    Fahrenheit and back, or to Celsius and back, returns the number one
    started from (exact arithmetic; floats agree up to rounding). *)
Theorem f_c_round_trip :
  forall x : R, f_to_c (c_to_f x) = x /\ c_to_f (f_to_c x) = x.
Proof.
  intros x. unfold f_to_c, c_to_f. split; lra.
Qed.

(* ================================================================= *)
(** ** Wind chill *)

(** C4. With [Tf <= 50] and [wind_mph > 3] the wind chill is present and
    is the closed-form polynomial in [Tf] and [wind_mph ^ 0.16]; with
    [Tf > 50] or [wind_mph <= 3] it is absent. *)
Theorem wind_chill_f_applicability :
  forall Tf wind_mph : R,
    (Tf <= 50 -> wind_mph > 3 ->
     wind_chill_f Tf wind_mph =
       Some (35.74 + 0.6215 * Tf - 35.75 * Rpower wind_mph 0.16
             + 0.4275 * Tf * Rpower wind_mph 0.16))
    /\ (Tf > 50 \/ wind_mph <= 3 -> wind_chill_f Tf wind_mph = None).
Proof.
  intros Tf V. unfold wind_chill_f. split.
  - intros HT HV. rewrite py_pow_pos by lra.
    cases_on_order; simpl; try reflexivity; lra.
  - intros H. cases_on_order; simpl; try reflexivity; lra.
Qed.

Lemma wind_chill_f_applicability_witness :
  wind_chill_f 10 25 =
    Some (35.74 + 0.6215 * 10 - 35.75 * Rpower 25 0.16
          + 0.4275 * 10 * Rpower 25 0.16)
  /\ wind_chill_f 72 25 = None
  /\ wind_chill_f 10 3 = None.
Proof.
  split; [| split].
  - apply (proj1 (wind_chill_f_applicability 10 25)); lra.
  - apply (proj2 (wind_chill_f_applicability 72 25)); left; lra.
  - apply (proj2 (wind_chill_f_applicability 10 3)); right; lra.
Defined.

(* ================================================================= *)
(** ** WBGT estimate *)

Lemma clamp_rh_idempotent rh : clamp_rh (clamp_rh rh) = clamp_rh rh.
Proof. apply clamp_rh_fixed, clamp_rh_range. Qed.

Lemma approx_natural_wet_bulb_clamped Tc rh :
  approx_natural_wet_bulb Tc rh = approx_natural_wet_bulb Tc (clamp_rh rh).
Proof.
  unfold approx_natural_wet_bulb.
  rewrite !py_clamp_is_clamp_rh, clamp_rh_idempotent. reflexivity.
Qed.

(** C7. Any relative humidity is accepted, and the estimate is the one of
    the humidity clamped to [0, 100]: the value the formula works on is
    the clamped one, which keeps the square root and the power inside
    their domains. *)
Theorem approx_wbgt_clamps_humidity :
  forall (Tc rh : R) (sunny : bool) (globe_offset_c : R),
    approx_wbgt Tc rh sunny globe_offset_c =
      approx_wbgt Tc (clamp_rh rh) sunny globe_offset_c
    /\ 0 <= py_max 0.0 (py_min 100.0 rh) <= 100.
Proof.
  intros Tc rh sunny off. split.
  - unfold approx_wbgt.
    rewrite <- approx_natural_wet_bulb_clamped. reflexivity.
  - rewrite py_clamp_is_clamp_rh. apply clamp_rh_range.
Qed.

(* ================================================================= *)
(** ** Heat category *)

Lemma heat_category_in_gap x :
  in_band_gap x -> heat_category_from_wbgt_f x = ("Black (Cat 5)", 5%Z).
Proof.
  unfold in_band_gap, heat_category_from_wbgt_f. intros H. order_cases.
Qed.

Lemma heat_category_off_gap x :
  ~ in_band_gap x -> heat_category_from_wbgt_f x = heat_category_table x.
Proof.
  unfold in_band_gap, heat_category_from_wbgt_f, heat_category_table.
  intros H. order_cases; exfalso; apply H; lra.
Qed.

(** The boundary values the specification lists are classified as its
    table says. *)
Lemma heat_category_boundaries :
  heat_category_from_wbgt_f 77.9 = ("Below White", 1%Z)
  /\ heat_category_from_wbgt_f 78.0 = ("White (Cat 1)", 1%Z)
  /\ heat_category_from_wbgt_f 81.9 = ("White (Cat 1)", 1%Z)
  /\ heat_category_from_wbgt_f 82.0 = ("Green (Cat 2)", 2%Z)
  /\ heat_category_from_wbgt_f 84.9 = ("Green (Cat 2)", 2%Z)
  /\ heat_category_from_wbgt_f 85.0 = ("Yellow (Cat 3)", 3%Z)
  /\ heat_category_from_wbgt_f 87.9 = ("Yellow (Cat 3)", 3%Z)
  /\ heat_category_from_wbgt_f 88.0 = ("Red (Cat 4)", 4%Z)
  /\ heat_category_from_wbgt_f 89.9 = ("Red (Cat 4)", 4%Z)
  /\ heat_category_from_wbgt_f 90.0 = ("Black (Cat 5)", 5%Z).
Proof.
  unfold heat_category_from_wbgt_f. repeat split; order_cases.
Qed.

(** C3. The classifier does not follow the half-open table on every real
    number: at 81.95, which the table puts in White, no band of the source
    matches and the fall-through category Black (5) is returned, on the
    reals and on binary64 floats alike.  Exactly 82.0 is Green. *)
Theorem heat_category_gap_at_81_95 :
  heat_category_from_wbgt_f 81.95 = ("Black (Cat 5)", 5%Z)
  /\ heat_category_table 81.95 = ("White (Cat 1)", 1%Z)
  /\ Binary64.heat_category_from_wbgt_f 81.95%float = ("Black (Cat 5)", 5%Z)
  /\ heat_category_from_wbgt_f 82.0 = ("Green (Cat 2)", 2%Z).
Proof.
  split; [| split; [| split]].
  - apply heat_category_in_gap. unfold in_band_gap. lra.
  - unfold heat_category_table. order_cases.
  - vm_compute. reflexivity.
  - unfold heat_category_from_wbgt_f. order_cases.
Qed.

(** *** NaN *)

Lemma SFeqb_irrefl_nan s : SFeqb s s = false -> s = S754_nan.
Proof.
  destruct s as [b | b | | b m e]; unfold SFeqb; simpl;
    try discriminate; try reflexivity.
  - destruct b; discriminate.
  - rewrite Z.compare_refl, Pos.compare_cont_refl. destruct b; discriminate.
Qed.

Lemma is_nan_Prim2SF x : is_nan x = true -> Prim2SF x = S754_nan.
Proof.
  unfold is_nan. intros H. apply negb_true_iff in H.
  rewrite FloatAxioms.eqb_spec in H. now apply SFeqb_irrefl_nan.
Qed.

Lemma nan_ltb_l x y : is_nan x = true -> PrimFloat.ltb x y = false.
Proof.
  intros H. rewrite ltb_spec, (is_nan_Prim2SF x H). reflexivity.
Qed.

Lemma nan_leb_r x y : is_nan x = true -> PrimFloat.leb y x = false.
Proof.
  intros H. rewrite leb_spec, (is_nan_Prim2SF x H).
  unfold SFleb. destruct (Prim2SF y); reflexivity.
Qed.

(** C6, as the code has it.  A NaN is not rejected: every comparison of
    the classifier is false on it, so the fall-through pair Black (5) is
    returned. *)
Theorem heat_category_nan_falls_through :
  forall x : float,
    is_nan x = true ->
    Binary64.heat_category_from_wbgt_f x = ("Black (Cat 5)", 5%Z).
Proof.
  intros x H. unfold Binary64.heat_category_from_wbgt_f.
  rewrite (nan_ltb_l x _ H), !(nan_leb_r x _ H). reflexivity.
Qed.

Lemma heat_category_nan_falls_through_witness :
  is_nan nan = true
  /\ Binary64.heat_category_from_wbgt_f nan = ("Black (Cat 5)", 5%Z).
Proof.
  split; [reflexivity |].
  apply (heat_category_nan_falls_through nan). reflexivity.
Defined.

(** C6, as stated, fails: on the NaN float the classifier does return the
    concrete category Black. *)
Lemma heat_category_nan_returns_black :
  is_nan nan = true
  /\ ~ (Binary64.heat_category_from_wbgt_f nan <> ("Black (Cat 5)", 5%Z)).
Proof.
  split; [reflexivity |]. intros H. apply H. vm_compute. reflexivity.
Qed.

(* ================================================================= *)
(** ** Condition interpreter *)

Lemma lower_app a b : lower (a ++ b) = lower a ++ lower b.
Proof.
  induction a as [| c a IH]; simpl; [reflexivity | now rewrite IH].
Qed.

Lemma prefix_app n s : prefix n (n ++ s) = true.
Proof.
  induction n as [| c n IH]; simpl; [destruct s; reflexivity |].
  destruct (ascii_dec c c); [exact IH | congruence].
Qed.

Lemma str_in_unfold n h :
  str_in n h =
    (prefix n h || match h with
                   | EmptyString => false
                   | String _ t => str_in n t
                   end)%bool.
Proof. destruct h; reflexivity. Qed.

(** A text that has [n] somewhere inside contains it. *)
Lemma str_in_app n pre suf : str_in n (pre ++ n ++ suf) = true.
Proof.
  induction pre as [| c pre IH].
  - cbn [append]. rewrite str_in_unfold, prefix_app. reflexivity.
  - cbn [append]. rewrite str_in_unfold, IH. apply orb_true_r.
Qed.

(** Conversely, containment exhibits the occurrence. *)
Lemma prefix_split n h : prefix n h = true -> exists suf, h = n ++ suf.
Proof.
  revert h. induction n as [| c n IH]; intros h H.
  - exists h. reflexivity.
  - destruct h as [| d h]; simpl in H; [discriminate |].
    destruct (ascii_dec c d) as [-> |]; [| discriminate].
    destruct (IH h H) as [suf ->]. exists suf. reflexivity.
Qed.

Lemma str_in_split n h :
  str_in n h = true -> exists pre suf, h = pre ++ n ++ suf.
Proof.
  induction h as [| c h IH]; rewrite str_in_unfold; intros H;
    apply orb_true_iff in H; destruct H as [H | H]; try discriminate.
  - destruct (prefix_split _ _ H) as [suf E]. exists "", suf. exact E.
  - destruct (prefix_split _ _ H) as [suf E]. exists "", suf. exact E.
  - destruct (IH H) as (pre & suf & ->). exists (String c pre), suf.
    reflexivity.
Qed.

Lemma or_empty_Some s : or_empty (Some s) = s.
Proof. destruct s; reflexivity. Qed.

(** The text the rules look at, when the input has an occurrence of a
    word [w]: the lower-cased word sits inside it. *)
Lemma lowered_text_app pre w suf :
  lower (or_empty (Some (pre ++ w ++ suf))) =
    lower pre ++ lower w ++ lower suf.
Proof. now rewrite or_empty_Some, !lower_app. Qed.

Lemma interpret_condition_first_rule t :
  (str_in "thunder" (lower (or_empty t))
   || str_in "storm" (lower (or_empty t)))%bool = true ->
  interpret_condition t =
    ("extreme", "Thunderstorm / lightning risk", Some "NO OUTDOOR TRAINING").
Proof.
  intros H. cbv beta zeta delta [interpret_condition].
  rewrite H. reflexivity.
Qed.

(** C2. A text with an occurrence of "thunder" or "storm" in any letter
    case is classified extreme with the override "NO OUTDOOR TRAINING",
    and the final decision made with that override is the override itself,
    whatever the temperature, wind chill, heat category, WBGT flag and
    precipitation level. *)
Theorem thunder_storm_forces_decision :
  forall pre w suf : string,
    lower w = "thunder" \/ lower w = "storm" ->
    interpret_condition (Some (pre ++ w ++ suf)) =
      ("extreme", "Thunderstorm / lightning risk", Some "NO OUTDOOR TRAINING")
    /\ forall temp_f wind_chill heat_cat_num wbgt_applicable precip_level,
         final_training_decision temp_f wind_chill heat_cat_num
           wbgt_applicable
           (snd (interpret_condition (Some (pre ++ w ++ suf))))
           precip_level
         = "NO OUTDOOR TRAINING".
Proof.
  intros pre w suf H.
  assert (E : interpret_condition (Some (pre ++ w ++ suf)) =
              ("extreme", "Thunderstorm / lightning risk",
               Some "NO OUTDOOR TRAINING")).
  { apply interpret_condition_first_rule. rewrite lowered_text_app.
    destruct H as [-> | ->]; rewrite str_in_app;
      [reflexivity | apply orb_true_r]. }
  split; [exact E |].
  intros. rewrite E. reflexivity.
Qed.

Lemma thunder_storm_forces_decision_witness :
  interpret_condition (Some "Severe Thunderstorms Expected") =
    ("extreme", "Thunderstorm / lightning risk", Some "NO OUTDOOR TRAINING")
  /\ forall temp_f wind_chill heat_cat_num wbgt_applicable precip_level,
       final_training_decision temp_f wind_chill heat_cat_num
         wbgt_applicable
         (snd (interpret_condition (Some "Severe Thunderstorms Expected")))
         precip_level
       = "NO OUTDOOR TRAINING".
Proof.
  apply (thunder_storm_forces_decision "Severe " "Thunder" "storms Expected").
  left. reflexivity.
Defined.

(** C5. On "Blizzard" the blizzard rule fires with the severity and the
    note of the specification, but the override it returns is spelled
    with an underscore, unlike the override of the three rules before
    it. *)
Theorem blizzard_override_spelling :
  interpret_condition (Some "Blizzard") =
    ("extreme", "Blizzard / near-zero visibility", Some "NO OUTDOOR_TRAINING")
  /\ snd (interpret_condition (Some "Blizzard")) <> Some "NO OUTDOOR TRAINING"
  /\ snd (interpret_condition (Some "Sleet")) = Some "NO OUTDOOR TRAINING".
Proof.
  split; [reflexivity | split; [discriminate | reflexivity]].
Qed.

(** Every text on which the blizzard rule is the first to fire gets the
    underscore spelling. *)
Lemma interpret_condition_blizzard_rule t :
  let c := lower (or_empty t) in
  (str_in "thunder" c || str_in "storm" c)%bool = false ->
  (str_in "freezing rain" c || (str_in "freezing" c && str_in "rain" c))%bool
    = false ->
  (str_in "sleet" c || str_in "ice" c || str_in "icy" c)%bool = false ->
  str_in "blizzard" c = true ->
  interpret_condition t =
    ("extreme", "Blizzard / near-zero visibility", Some "NO OUTDOOR_TRAINING").
Proof.
  intros c H1 H2 H3 H4. subst c. cbv beta zeta delta [interpret_condition].
  rewrite H1, H2, H3, H4. reflexivity.
Qed.

(* ================================================================= *)
(** ** Uniform recommendations *)

(** C10. The duty-uniform recommendation does not depend on the
    precipitation level it is given. *)
Theorem recommend_uniform_option_a_ignores_precip :
  forall (temp_f : R) (wind_chill : option R) (heat_cat_num : option Z)
         (wbgt_applicable : bool) (p1 p2 : string),
    recommend_uniform_option_a temp_f wind_chill heat_cat_num
      wbgt_applicable p1
    = recommend_uniform_option_a temp_f wind_chill heat_cat_num
        wbgt_applicable p2.
Proof.
  intros. unfold recommend_uniform_option_a. reflexivity.
Qed.

Lemma pt_bands_in_list t :
  In (recommend_pt_uniform (fun _ => None) (PyFloat t)) pt_band_strings.
Proof.
  unfold recommend_pt_uniform, pt_band_strings, py_float.
  cases_on_order; simpl; auto 10.
Qed.

Lemma recommend_pt_uniform_Returns parse x t :
  py_float parse x = Returns t ->
  recommend_pt_uniform parse x =
    recommend_pt_uniform (fun _ => None) (PyFloat t).
Proof.
  intros H. unfold recommend_pt_uniform. rewrite H. reflexivity.
Qed.

(** C8. An input that [float()] does not accept gets the default
    "Standard PT uniform", no error escapes; an input that it accepts gets
    one of the five band strings. *)
Theorem recommend_pt_uniform_default_or_band :
  forall (parse_float : string -> option R) (temp_f : pyobj),
    (~ numeric parse_float temp_f ->
     recommend_pt_uniform parse_float temp_f = "Standard PT uniform")
    /\ (numeric parse_float temp_f ->
        In (recommend_pt_uniform parse_float temp_f) pt_band_strings).
Proof.
  intros parse x. split.
  - intros H. unfold recommend_pt_uniform.
    destruct (py_float parse x) as [t | e] eqn:E; [| reflexivity].
    exfalso. apply H. exists t. exact E.
  - intros [t E]. rewrite (recommend_pt_uniform_Returns _ _ _ E).
    apply pt_bands_in_list.
Qed.

Lemma recommend_pt_uniform_default_or_band_witness :
  recommend_pt_uniform (fun _ => None) (PyStr "n/a") = "Standard PT uniform"
  /\ recommend_pt_uniform (fun _ => None) PyNone = "Standard PT uniform"
  /\ In (recommend_pt_uniform (fun _ => None) (PyInt 72)) pt_band_strings.
Proof.
  split; [| split].
  - apply (proj1 (recommend_pt_uniform_default_or_band
                    (fun _ => None) (PyStr "n/a"))).
    intros [t E]. discriminate E.
  - apply (proj1 (recommend_pt_uniform_default_or_band
                    (fun _ => None) PyNone)).
    intros [t E]. discriminate E.
  - apply (proj2 (recommend_pt_uniform_default_or_band
                    (fun _ => None) (PyInt 72))).
    exists 72. reflexivity.
Defined.

(** On binary64 floats the same holds for every float the conversion can
    return, NaN and the infinities included. *)
Lemma pt_bands_in_list_binary64 (t : float) :
  In (Binary64.recommend_pt_uniform (Returns t)) pt_band_strings.
Proof.
  unfold Binary64.recommend_pt_uniform, pt_band_strings.
  destruct (PrimFloat.ltb 80 t); [simpl; auto |].
  destruct (PrimFloat.leb 60 t && PrimFloat.leb t 80); [simpl; auto |].
  destruct (PrimFloat.leb 40 t && PrimFloat.leb t 59); [simpl; auto |].
  destruct (PrimFloat.leb 20 t && PrimFloat.leb t 39); simpl; auto 10.
Qed.

(* ================================================================= *)
(** ** Final training decision *)

Lemma truthy_Some s : s <> "" -> truthy (Some s) = true.
Proof.
  intros H. unfold truthy. apply negb_true_iff, String.eqb_neq. exact H.
Qed.

(** C1. The order of the rules of the decision engine.  A present
    override is returned whatever else holds.  Without an override, a wind
    chill of at most -20 gives the extreme-cold decision whatever the heat
    category and the precipitation level; the two milder cold bands come
    next, again before precipitation and heat; and a high precipitation
    level decides, when no cold rule fires, before any heat rule. *)
Theorem final_training_decision_priority :
  forall (temp_f : R) (heat_cat_num : option Z) (wbgt_applicable : bool)
         (precip_level : string),
    (forall wind_chill s,
        s <> "" ->
        final_training_decision temp_f wind_chill heat_cat_num
          wbgt_applicable (Some s) precip_level = s)
    /\ (forall wc override,
           truthy override = false -> wc <= -20 ->
           final_training_decision temp_f (Some wc) heat_cat_num
             wbgt_applicable override precip_level
           = "NO OUTDOOR TRAINING — EXTREME COLD")
    /\ (forall wc override,
           truthy override = false -> -20 < wc <= 0 ->
           final_training_decision temp_f (Some wc) heat_cat_num
             wbgt_applicable override precip_level
           = "MOVE TRAINING INDOORS / HIGH COLD RISK")
    /\ (forall wc override,
           truthy override = false -> 0 < wc <= 20 ->
           final_training_decision temp_f (Some wc) heat_cat_num
             wbgt_applicable override precip_level
           = "LIMIT OUTDOOR TRAINING / USE INDOORS WHEN POSSIBLE (COLD CAUTION)")
    /\ (forall wind_chill override,
           truthy override = false ->
           match wind_chill with Some wc => 20 < wc | None => True end ->
           final_training_decision temp_f wind_chill heat_cat_num
             wbgt_applicable override "high"
           = "LIMIT OUTDOOR TRAINING / USE INDOORS WHEN POSSIBLE (PRECIPITATION)").
Proof.
  intros temp heat app pl. split; [| split; [| split; [| split]]].
  - intros wc s H. unfold final_training_decision.
    rewrite (truthy_Some s H). reflexivity.
  - intros wc ov Ho H. unfold final_training_decision. rewrite Ho.
    order_cases.
  - intros wc ov Ho H. unfold final_training_decision. rewrite Ho.
    order_cases.
  - intros wc ov Ho H. unfold final_training_decision. rewrite Ho.
    order_cases.
  - intros wc ov Ho H. unfold final_training_decision. rewrite Ho.
    destruct wc as [wc |]; order_cases.
Qed.

Lemma final_training_decision_priority_witness :
  final_training_decision 95 (Some (-25)) (Some 5%Z) true None "moderate"
    = "NO OUTDOOR TRAINING — EXTREME COLD"
  /\ final_training_decision 95 (Some (-25)) (Some 5%Z) true
       (Some "NO OUTDOOR TRAINING") "moderate"
     = "NO OUTDOOR TRAINING"
  /\ final_training_decision 95 (Some (-5)) (Some 5%Z) true None "high"
     = "MOVE TRAINING INDOORS / HIGH COLD RISK"
  /\ final_training_decision 95 (Some 15) (Some 5%Z) true None "high"
     = "LIMIT OUTDOOR TRAINING / USE INDOORS WHEN POSSIBLE (COLD CAUTION)"
  /\ final_training_decision 95 None (Some 5%Z) true None "high"
     = "LIMIT OUTDOOR TRAINING / USE INDOORS WHEN POSSIBLE (PRECIPITATION)".
Proof.
  destruct (final_training_decision_priority 95 (Some 5%Z) true "moderate")
    as (Hov & Hcold & _).
  destruct (final_training_decision_priority 95 (Some 5%Z) true "high")
    as (_ & _ & Hmid & Hlim & Hprecip).
  split; [| split; [| split; [| split]]].
  - apply Hcold; [reflexivity | lra].
  - apply Hov. discriminate.
  - apply Hmid; [reflexivity | lra].
  - apply Hlim; [reflexivity | lra].
  - apply (Hprecip None None); [reflexivity | exact I].
Defined.

(* ================================================================= *)
(** ** Further properties of the numeric helpers *)

(** The closed form of the wind chill. *)
Definition wind_chill_formula (Tf wind_mph : R) : R :=
  35.74 + 0.6215 * Tf - 35.75 * Rpower wind_mph 0.16
  + 0.4275 * Tf * Rpower wind_mph 0.16.

Lemma wind_chill_f_Some Tf V :
  Tf <= 50 -> 3 < V -> wind_chill_f Tf V = Some (wind_chill_formula Tf V).
Proof.
  intros HT HV. unfold wind_chill_f, wind_chill_formula.
  rewrite py_pow_pos by lra. order_cases.
Qed.

Lemma Rpower_pos x y : 0 < Rpower x y.
Proof. unfold Rpower. apply exp_pos. Qed.

(** [3 ^ 0.16] is above 1.19: otherwise its 25th power, which is [3^4],
    would be at most [1.19 ^ 25 < 81]. *)
Lemma Rpower_3_lower_bound : 1.19 < Rpower 3 0.16.
Proof.
  destruct (Rlt_le_dec 1.19 (Rpower 3 0.16)) as [H | H]; [exact H | exfalso].
  assert (H25 : Rpower (Rpower 3 0.16) (INR 25)
                <= Rpower 1.19 (INR 25)).
  { apply Rle_Rpower_l; [apply pos_INR |].
    split; [apply Rpower_pos | exact H]. }
  rewrite Rpower_mult in H25.
  replace (0.16 * INR 25) with (INR 4) in H25 by (simpl; lra).
  rewrite !Rpower_pow in H25 by lra.
  lra.
Qed.

Lemma Rpower_wind_lower_bound V : 3 < V -> 1.19 < Rpower V 0.16.
Proof.
  intros HV. apply Rlt_le_trans with (Rpower 3 0.16).
  - apply Rpower_3_lower_bound.
  - apply Rle_Rpower_l; lra.
Qed.

(** X1. Where the wind chill is defined, a warmer air temperature at the
    same wind never gives a lower wind chill. *)
Theorem wind_chill_f_monotone_in_temperature :
  forall T1 T2 V : R,
    T1 <= T2 -> T2 <= 50 -> 3 < V ->
    exists w1 w2,
      wind_chill_f T1 V = Some w1 /\ wind_chill_f T2 V = Some w2 /\ w1 <= w2.
Proof.
  intros T1 T2 V H12 H2 HV.
  exists (wind_chill_formula T1 V), (wind_chill_formula T2 V).
  rewrite !wind_chill_f_Some by lra. repeat split.
  unfold wind_chill_formula.
  pose proof (Rpower_pos V 0.16) as Hp. nra.
Qed.

Lemma wind_chill_f_monotone_in_temperature_witness :
  exists w1 w2,
    wind_chill_f 0 10 = Some w1 /\ wind_chill_f 30 10 = Some w2 /\ w1 <= w2.
Proof.
  apply (wind_chill_f_monotone_in_temperature 0 30 10); lra.
Defined.



(** X3. A wind chill that is present is strictly below the air
    temperature it was computed from. *)
Theorem wind_chill_f_below_air_temperature :
  forall Tf V w : R, wind_chill_f Tf V = Some w -> w < Tf.
Proof.
  intros Tf V w. unfold wind_chill_f.
  destruct (50 <? Tf) eqn:HT; [discriminate |].
  destruct (V <=? 3) eqn:HV; [discriminate |]. simpl.
  apply Rltb_ge in HT. apply Rleb_gt in HV.
  rewrite py_pow_pos by lra. intros E. injection E as <-.
  pose proof (Rpower_wind_lower_bound V HV) as Hp. nra.
Qed.

Lemma wind_chill_f_below_air_temperature_witness :
  wind_chill_f 10 25 = Some (wind_chill_formula 10 25)
  /\ wind_chill_formula 10 25 < 10.
Proof.
  assert (E : wind_chill_f 10 25 = Some (wind_chill_formula 10 25))
    by (apply wind_chill_f_Some; lra).
  split; [exact E |].
  exact (wind_chill_f_below_air_temperature 10 25 _ E).
Defined.



(* ================================================================= *)
(** ** Further properties of the classifiers *)

(** X6. The classifier against the half-open table, on every real: the
    two agree exactly off the four gaps the decimal upper bounds leave,
    inside a gap the classifier answers Black, and the number is always
    between 1 and 5. *)
Theorem heat_category_against_table :
  forall x : R,
    (~ in_band_gap x -> heat_category_from_wbgt_f x = heat_category_table x)
    /\ (in_band_gap x ->
        heat_category_from_wbgt_f x = ("Black (Cat 5)", 5%Z)
        /\ heat_category_table x <> ("Black (Cat 5)", 5%Z))
    /\ (1 <= snd (heat_category_from_wbgt_f x) <= 5)%Z.
Proof.
  intros x. split; [| split].
  - apply heat_category_off_gap.
  - intros H. split; [now apply heat_category_in_gap |].
    unfold in_band_gap in H. unfold heat_category_table.
    order_cases; discriminate.
  - unfold heat_category_from_wbgt_f. order_cases; simpl; split; discriminate.
Qed.

Lemma heat_category_against_table_witness :
  heat_category_from_wbgt_f 86 = heat_category_table 86
  /\ heat_category_from_wbgt_f 87.95 = ("Black (Cat 5)", 5%Z).
Proof.
  split.
  - apply (proj1 (heat_category_against_table 86)).
    unfold in_band_gap. lra.
  - apply (proj1 (proj2 (heat_category_against_table 87.95))).
    unfold in_band_gap. lra.
Defined.

(** The half-open table on a number of tenths. *)
Definition heat_category_table_tenths (k : Z) : string * Z :=
  if (k <? 780)%Z then ("Below White", 1%Z)
  else if (k <? 820)%Z then ("White (Cat 1)", 1%Z)
  else if (k <? 850)%Z then ("Green (Cat 2)", 2%Z)
  else if (k <? 880)%Z then ("Yellow (Cat 3)", 3%Z)
  else if (k <? 900)%Z then ("Red (Cat 4)", 4%Z)
  else ("Black (Cat 5)", 5%Z).

(** The binary64 float nearest to [k / 10], which is the float a literal
    with one decimal denotes. *)
Definition float_of_tenths (k : Z) : float :=
  (PrimFloat.of_uint63 (Uint63.of_Z k) / 10)%float.

Definition tenths_up_to (n : nat) : list Z := List.map Z.of_nat (List.seq 0 n).

Lemma tenths_up_to_In n k : (0 <= k < Z.of_nat n)%Z -> In k (tenths_up_to n).
Proof.
  intros H. unfold tenths_up_to. apply in_map_iff.
  exists (Z.to_nat k). split; [apply Z2Nat.id; apply H |].
  apply in_seq. split; [apply Nat.le_0_l |].
  lia.
Qed.

(** X7. On binary64 floats, every temperature with one decimal from 0.0
    to 200.0 is classified as the half-open table says: the gaps of the
    decimal bounds hold no such value. *)
Theorem heat_category_binary64_one_decimal :
  forall k : Z,
    (0 <= k <= 2000)%Z ->
    Binary64.heat_category_from_wbgt_f (float_of_tenths k)
    = heat_category_table_tenths k.
Proof.
  intros k Hk.
  assert (Hall :
    forallb (fun k =>
               let '(l1, n1) :=
                 Binary64.heat_category_from_wbgt_f (float_of_tenths k) in
               let '(l2, n2) := heat_category_table_tenths k in
               String.eqb l1 l2 && Z.eqb n1 n2)
            (tenths_up_to 2001) = true) by (vm_compute; reflexivity).
  rewrite forallb_forall in Hall.
  specialize (Hall k (tenths_up_to_In 2001 k ltac:(lia))).
  destruct (Binary64.heat_category_from_wbgt_f (float_of_tenths k)) as [l1 n1].
  destruct (heat_category_table_tenths k) as [l2 n2].
  apply andb_true_iff in Hall. destruct Hall as [Hl Hn].
  apply String.eqb_eq in Hl. apply Z.eqb_eq in Hn. congruence.
Qed.

Lemma heat_category_binary64_one_decimal_witness :
  Binary64.heat_category_from_wbgt_f (float_of_tenths 819)
  = ("White (Cat 1)", 1%Z).
Proof.
  apply (heat_category_binary64_one_decimal 819). lia.
Defined.

(** The decimal literals of the source are such floats. *)
Lemma float_of_tenths_literals :
  float_of_tenths 819 = 81.9%float /\ float_of_tenths 849 = 84.9%float
  /\ float_of_tenths 879 = 87.9%float /\ float_of_tenths 899 = 89.9%float
  /\ float_of_tenths 780 = 78%float.
Proof. vm_compute. repeat split. Qed.

(* ================================================================= *)
(** ** Further properties of the condition interpreter *)

Lemma append_assoc_str (a b c : string) : (a ++ b) ++ c = a ++ b ++ c.
Proof.
  induction a as [| x a IH]; simpl; [reflexivity | now rewrite IH].
Qed.







(** Case analysis on the guards of a rule list, first to last. *)
Ltac rule_cases :=
  repeat match goal with
    | |- context [if ?g then _ else _] => destruct g eqn:?
    end.

(** X9. Whatever the text, the severity is one of four words, an
    override comes with severity "extreme" and with no other, and an
    override is one of two non-empty strings. *)
Theorem interpret_condition_invariants :
  forall cond_text : option string,
    let '(level, note, override) := interpret_condition cond_text in
    In level ["low"; "moderate"; "high"; "extreme"]
    /\ (level = "extreme" <-> override <> None)
    /\ (truthy override = true <-> override <> None)
    /\ (forall s, override = Some s ->
                  s = "NO OUTDOOR TRAINING" \/ s = "NO OUTDOOR_TRAINING").
Proof.
  intros t. unfold interpret_condition. cbv zeta.
  rule_cases; simpl;
    (split; [tauto |]);
    (split; [split; intros; congruence |]);
    (split; [split; intros; congruence |]);
    intros s E; inversion E; auto.
Qed.

Lemma interpret_condition_extreme_rules t :
  let c := lower (or_empty t) in
  ((str_in "thunder" c || str_in "storm" c)
   || (str_in "freezing rain" c || (str_in "freezing" c && str_in "rain" c))
   || (str_in "sleet" c || str_in "ice" c || str_in "icy" c))%bool = true ->
  fst (fst (interpret_condition t)) = "extreme"
  /\ snd (interpret_condition t) = Some "NO OUTDOOR TRAINING".
Proof.
  intros c H. subst c. cbv beta zeta delta [interpret_condition].
  destruct (str_in "thunder" _ || str_in "storm" _)%bool; [now split |].
  destruct (str_in "freezing rain" _ || _)%bool; [now split |].
  simpl in H. rewrite H. now split.
Qed.

(** X10. A text with an occurrence, in any letter case, of "thunder",
    "storm", "freezing rain", "sleet", "ice" or "icy" (inside a longer
    word too) is extreme, its override is exactly "NO OUTDOOR TRAINING",
    and that is the final decision whatever the numbers say. *)
Theorem extreme_keywords_force_decision :
  forall pre w suf : string,
    In (lower w) ["thunder"; "storm"; "freezing rain"; "sleet"; "ice"; "icy"] ->
    let r := interpret_condition (Some (pre ++ w ++ suf)) in
    fst (fst r) = "extreme"
    /\ snd r = Some "NO OUTDOOR TRAINING"
    /\ forall temp_f wind_chill heat_cat_num wbgt_applicable,
         final_training_decision temp_f wind_chill heat_cat_num
           wbgt_applicable (snd r) (fst (fst r))
         = "NO OUTDOOR TRAINING".
Proof.
  intros pre w suf H r.
  assert (E : fst (fst r) = "extreme"
              /\ snd r = Some "NO OUTDOOR TRAINING").
  { subst r. apply interpret_condition_extreme_rules.
    rewrite lowered_text_app.
    simpl in H.
    destruct H as [<- | [<- | [<- | [<- | [<- | [<- | []]]]]]];
      rewrite str_in_app; rewrite ?orb_true_r; reflexivity. }
  destruct E as [E1 E2]. split; [exact E1 |]. split; [exact E2 |].
  intros. rewrite E2. reflexivity.
Qed.

Lemma extreme_keywords_force_decision_witness :
  snd (interpret_condition (Some "Nice weather")) = Some "NO OUTDOOR TRAINING".
Proof.
  apply (extreme_keywords_force_decision "N" "ice" " weather").
  do 4 right. left. reflexivity.
Defined.

(** X11. The "light rain" alternative of the drizzle rule is shadowed by
    the rain rule before it: a text with an occurrence of "light rain" is
    never classified low. *)
Theorem light_rain_is_never_low :
  forall pre w suf : string,
    lower w = "light rain" ->
    In (fst (fst (interpret_condition (Some (pre ++ w ++ suf)))))
       ["moderate"; "high"; "extreme"].
Proof.
  intros pre w suf H.
  assert (Hrain : str_in "rain" (lower (or_empty (Some (pre ++ w ++ suf))))
                  = true).
  { rewrite lowered_text_app, H.
    change "light rain" with ("light " ++ "rain").
    rewrite (append_assoc_str "light " "rain"), <- append_assoc_str.
    apply str_in_app. }
  cbv beta zeta delta [interpret_condition]. rewrite Hrain.
  rewrite ?andb_true_r, ?orb_true_r, ?orb_true_l.
  rule_cases; simpl; auto.
Qed.

Lemma light_rain_is_never_low_witness :
  In (fst (fst (interpret_condition (Some "Light Rain"))))
     ["moderate"; "high"; "extreme"].
Proof.
  apply (light_rain_is_never_low "" "Light Rain" ""). reflexivity.
Defined.

(* ================================================================= *)
(** ** Further properties of the uniform recommendations *)

Ltac int_cases :=
  repeat match goal with
    | |- context [(?a <=? ?b)%Z] =>
        let H := fresh "Hz" in destruct (Z.leb_spec a b) as [H | H]
    | |- context [(?a =? ?b)%Z] =>
        let H := fresh "Hz" in destruct (Z.eqb_spec a b) as [H | H]
    end.

(** X12. The duty-uniform level is between 0 and 3, and when the heat
    category applies and is known the recommendation is decided by it
    alone: temperature, wind chill and precipitation level play no
    part. *)
Theorem recommend_uniform_level_range_and_heat_first :
  forall (temp_f : R) (wind_chill : option R) (heat_cat_num : option Z)
         (wbgt_applicable : bool) (precip_level : string),
    (0 <= snd (recommend_uniform_option_a temp_f wind_chill heat_cat_num
                 wbgt_applicable precip_level) <= 3)%Z
    /\ forall n temp_f' wind_chill' precip_level',
         recommend_uniform_option_a temp_f wind_chill (Some n) true
           precip_level
         = recommend_uniform_option_a temp_f' wind_chill' (Some n) true
             precip_level'.
Proof.
  intros temp wc heat app pl. split; [| reflexivity].
  unfold recommend_uniform_option_a.
  destruct app, heat as [n |], wc as [w |];
    int_cases; cases_on_order; simpl; lia.
Qed.

(** X13. With everything else fixed, a lower wind chill never lowers the
    duty-uniform level, an absent wind chill gives the lowest level of
    all, and a higher heat category never lowers the level. *)
Theorem recommend_uniform_level_monotone :
  forall (temp_f : R) (heat_cat_num : option Z) (wbgt_applicable : bool)
         (precip_level : string),
    let level wc h :=
      snd (recommend_uniform_option_a temp_f wc h wbgt_applicable
             precip_level) in
    (forall wc1 wc2 : R,
        wc1 <= wc2 ->
        (level (Some wc2) heat_cat_num <= level (Some wc1) heat_cat_num)%Z)
    /\ (forall wc : R,
           (level None heat_cat_num <= level (Some wc) heat_cat_num)%Z)
    /\ (forall (wind_chill : option R) (n1 n2 : Z),
           wbgt_applicable = true -> (n1 <= n2)%Z ->
           (level wind_chill (Some n1) <= level wind_chill (Some n2))%Z).
Proof.
  intros temp heat app pl level. subst level. cbv beta.
  unfold recommend_uniform_option_a. split; [| split].
  - intros wc1 wc2 H.
    destruct app, heat as [n |]; int_cases; cases_on_order;
      simpl; try lia; lra.
  - intros wc.
    destruct app, heat as [n |]; int_cases; cases_on_order; simpl; lia.
  - intros wc n1 n2 -> H. int_cases; simpl; lia.
Qed.

Lemma recommend_uniform_level_monotone_witness :
  Z.le (snd (recommend_uniform_option_a 40 (Some 25) None false "low"))
       (snd (recommend_uniform_option_a 40 (Some (-30)) None false "low"))
  /\ Z.le (snd (recommend_uniform_option_a 90 None (Some 3%Z) true "low"))
          (snd (recommend_uniform_option_a 90 None (Some 5%Z) true "low")).
Proof.
  split.
  - apply (proj1 (recommend_uniform_level_monotone 40 None false "low")).
    lra.
  - apply (proj2 (proj2 (recommend_uniform_level_monotone
                           90 None true "low")) None 3%Z 5%Z);
      [reflexivity | lia].
Defined.

Definition pt_gloves : string :=
  "APFU Short-sleeve + APFU Long-sleeve + APFU Pants + APFU Jacket + Fleece Cap + Gloves".

(** X14. The PT-uniform bands on a number.  Above 80 and from 60 to 80
    the two short-sleeve strings; from 40 to 59 and from 20 to 39 the two
    layered strings; and the coldest string, with gloves, below 20 and
    also strictly between 39 and 40 and strictly between 59 and 60, which
    no band covers. *)
Theorem recommend_pt_uniform_bands :
  forall (parse_float : string -> option R) (t : R),
    let pt := recommend_pt_uniform parse_float (PyFloat t) in
    (80 < t -> pt = "APFU Short-sleeve + shorts")
    /\ (60 <= t <= 80 -> pt = "APFU Short-sleeve shirt + APFU shorts")
    /\ (40 <= t <= 59 ->
        pt = "APFU Short-sleeve + APFU Long-sleeve + APFU shorts")
    /\ (20 <= t <= 39 ->
        pt = "APFU Short-sleeve + APFU Long-sleeve + APFU Pants + APFU Jacket + Fleece Cap")
    /\ (t < 20 \/ 39 < t < 40 \/ 59 < t < 60 -> pt = pt_gloves).
Proof.
  intros parse t pt. subst pt.
  unfold recommend_pt_uniform, py_float, pt_gloves.
  repeat split; intros H; order_cases.
Qed.

Lemma recommend_pt_uniform_bands_witness :
  recommend_pt_uniform (fun _ => None) (PyFloat 59.5) = pt_gloves
  /\ recommend_pt_uniform (fun _ => None) (PyFloat 85)
     = "APFU Short-sleeve + shorts"
  /\ recommend_pt_uniform (fun _ => None) (PyFloat 70)
     = "APFU Short-sleeve shirt + APFU shorts"
  /\ recommend_pt_uniform (fun _ => None) (PyFloat 45)
     = "APFU Short-sleeve + APFU Long-sleeve + APFU shorts"
  /\ recommend_pt_uniform (fun _ => None) (PyFloat 25)
     = "APFU Short-sleeve + APFU Long-sleeve + APFU Pants + APFU Jacket + Fleece Cap".
Proof.
  pose proof (recommend_pt_uniform_bands (fun _ => None)) as B.
  split; [| split; [| split; [| split]]].
  - apply (proj2 (proj2 (proj2 (proj2 (B 59.5))))). right. right. lra.
  - apply (proj1 (B 85)). lra.
  - apply (proj1 (proj2 (B 70))). lra.
  - apply (proj1 (proj2 (proj2 (B 45)))). lra.
  - apply (proj1 (proj2 (proj2 (proj2 (B 25))))). lra.
Defined.

(* ================================================================= *)
(** ** Further properties of the final decision *)

(** The decisions of the engine by the icon [get_status_color] gives
    them. *)
Definition stop_decisions : list string :=
  [ "NO OUTDOOR TRAINING"; "NO OUTDOOR_TRAINING";
    "NO OUTDOOR TRAINING — EXTREME COLD";
    "MOVE TRAINING INDOORS / HIGH COLD RISK";
    "NO OUTDOOR TRAINING — EXTREME HEAT (BLACK FLAG)" ].

Definition limit_decisions : list string :=
  [ "LIMIT OUTDOOR TRAINING / USE INDOORS WHEN POSSIBLE (COLD CAUTION)";
    "LIMIT OUTDOOR TRAINING / USE INDOORS WHEN POSSIBLE (PRECIPITATION)";
    "LIMIT OUTDOOR TRAINING / USE INDOORS WHEN POSSIBLE (HEAT)" ].

Definition go_decisions : list string :=
  [ "TRAIN OUTDOORS WITH CAUTION (HEAT)";
    "TRAIN OUTDOORS (NO RESTRICTIONS)" ].

(** X15. Without an override, training is unrestricted exactly when no
    cold rule fires (wind chill absent or above 20), the precipitation
    level is not "high", and the heat category, where it applies, is
    below 3. *)
Theorem unrestricted_training_iff :
  forall (temp_f : R) (wind_chill : option R) (heat_cat_num : option Z)
         (wbgt_applicable : bool) (override : option string)
         (precip_level : string),
    truthy override = false ->
    (final_training_decision temp_f wind_chill heat_cat_num wbgt_applicable
       override precip_level = "TRAIN OUTDOORS (NO RESTRICTIONS)"
     <-> match wind_chill with Some wc => 20 < wc | None => True end
         /\ precip_level <> "high"
         /\ (wbgt_applicable = true ->
             forall n, heat_cat_num = Some n -> (n < 3)%Z)).
Proof.
  intros temp wc heat app ov pl Ho. unfold final_training_decision.
  rewrite Ho.
  destruct (String.eqb_spec pl "high") as [Hp | Hp];
    destruct wc as [w |]; cases_on_order;
    destruct app; destruct heat as [n |]; int_cases;
    (split;
     [ intros E; try discriminate E;
       repeat split; try lra; try assumption; try discriminate;
       intros; try discriminate;
       match goal with
       | H : Some _ = Some _ |- _ => injection H as <-; lia
       | _ => idtac
       end
     | intros (Hw & Hl & Hh); try reflexivity; try lra; try congruence;
       specialize (Hh eq_refl _ eq_refl); lia ]).
Qed.

Lemma unrestricted_training_iff_witness :
  final_training_decision 70 None (Some 2%Z) true None "moderate"
  = "TRAIN OUTDOORS (NO RESTRICTIONS)".
Proof.
  apply (proj2 (unrestricted_training_iff 70 None (Some 2%Z) true None
                  "moderate" eq_refl)).
  split; [exact I |]. split; [discriminate |].
  intros _ n E. injection E as <-. lia.
Defined.

Lemma final_training_decision_range temp wc heat app ov pl :
  ov = None \/ ov = Some "NO OUTDOOR TRAINING"
  \/ ov = Some "NO OUTDOOR_TRAINING" ->
  In (final_training_decision temp wc heat app ov pl)
     (stop_decisions ++ limit_decisions ++ go_decisions).
Proof.
  intros [-> | [-> | ->]]; [| simpl; auto | simpl; auto].
  unfold final_training_decision.
  destruct wc as [w |]; cbn [truthy];
    cases_on_order; destruct (String.eqb pl "high");
    destruct app; destruct heat as [n |]; int_cases;
    simpl; auto 12.
Qed.

Lemma get_status_color_by_class d :
  (In d stop_decisions -> get_status_color d = "🔴")
  /\ (In d limit_decisions -> get_status_color d = "🟡")
  /\ (In d go_decisions -> get_status_color d = "🟢").
Proof.
  unfold stop_decisions, limit_decisions, go_decisions. simpl.
  repeat split; intros H;
    repeat (destruct H as [<- | H]; [reflexivity |]); destruct H.
Qed.

Lemma interpret_condition_invariants_aux t :
  forall s, snd (interpret_condition t) = Some s ->
            s = "NO OUTDOOR TRAINING" \/ s = "NO OUTDOOR_TRAINING".
Proof.
  unfold interpret_condition. cbv zeta.
  rule_cases; simpl; intros s E; inversion E; auto.
Qed.

(* ================================================================= *)
(** ** The per-observation analysis *)

Section AnalysisFacts.

Variable parse_float : string -> option R.
Variable cold_label : string.
Variables temp_f temp_c rh wind_mph : R.
Variable sunny : bool.
Variable weather_text : string.

Let a : analysis :=
  observation_analysis parse_float cold_label temp_f temp_c rh wind_mph
    sunny weather_text.

Let cond : string * string * option string :=
  interpret_condition (Some weather_text).

Lemma analysis_wc : wc_of a = wind_chill_f temp_f wind_mph.
Proof.
  subst a. unfold observation_analysis. cbn [approx_wbgt].
  destruct (interpret_condition _) as [[l n] o].
  destruct (WBGT_CUTOFF_F <? temp_f);
    [destruct (heat_category_from_wbgt_f _) |];
    destruct (recommend_uniform_option_a _ _ _ _ _); reflexivity.
Qed.

Lemma analysis_applicable :
  wbgt_applicable_of a = (WBGT_CUTOFF_F <? temp_f).
Proof.
  subst a. unfold observation_analysis. cbn [approx_wbgt].
  destruct (interpret_condition _) as [[l n] o].
  destruct (WBGT_CUTOFF_F <? temp_f);
    [destruct (heat_category_from_wbgt_f _) |];
    destruct (recommend_uniform_option_a _ _ _ _ _); reflexivity.
Qed.

Lemma analysis_heat_num :
  heat_num_of a =
    if WBGT_CUTOFF_F <? temp_f
    then Some (snd (heat_category_from_wbgt_f (wbgt_f_of a)))
    else None.
Proof.
  subst a. unfold observation_analysis. cbn [approx_wbgt].
  destruct (interpret_condition _) as [[l n] o].
  destruct (WBGT_CUTOFF_F <? temp_f);
    [destruct (heat_category_from_wbgt_f _) eqn:E |];
    destruct (recommend_uniform_option_a _ _ _ _ _);
    cbn [heat_num_of wbgt_f_of];
    [rewrite E |]; reflexivity.
Qed.

Lemma analysis_condition :
  (precip_level_of a, cond_note_of a, precip_override_of a) = cond.
Proof.
  subst a cond. unfold observation_analysis. cbn [approx_wbgt].
  destruct (interpret_condition _) as [[l n] o].
  destruct (WBGT_CUTOFF_F <? temp_f);
    [destruct (heat_category_from_wbgt_f _) |];
    destruct (recommend_uniform_option_a _ _ _ _ _); reflexivity.
Qed.

Lemma analysis_uniform :
  (uniform_of a, uniform_level_of a) =
    recommend_uniform_option_a temp_f (wc_of a) (heat_num_of a)
      (wbgt_applicable_of a) (precip_level_of a).
Proof.
  subst a. unfold observation_analysis. cbn [approx_wbgt].
  destruct (interpret_condition _) as [[l n] o].
  destruct (WBGT_CUTOFF_F <? temp_f);
    [destruct (heat_category_from_wbgt_f _) |];
    destruct (recommend_uniform_option_a _ _ _ _ _) eqn:E;
    cbn [uniform_of uniform_level_of wc_of heat_num_of wbgt_applicable_of
         precip_level_of];
    rewrite E; reflexivity.
Qed.

Lemma analysis_final_dec :
  final_dec_of a =
    final_training_decision temp_f (wc_of a) (heat_num_of a)
      (wbgt_applicable_of a) (precip_override_of a) (precip_level_of a).
Proof.
  subst a. unfold observation_analysis. cbn [approx_wbgt].
  destruct (interpret_condition _) as [[l n] o].
  destruct (WBGT_CUTOFF_F <? temp_f);
    [destruct (heat_category_from_wbgt_f _) |];
    destruct (recommend_uniform_option_a _ _ _ _ _); reflexivity.
Qed.

Lemma analysis_status_icon :
  status_icon_of a = get_status_color (final_dec_of a).
Proof.
  subst a. unfold observation_analysis. cbn [approx_wbgt].
  destruct (interpret_condition _) as [[l n] o].
  destruct (WBGT_CUTOFF_F <? temp_f);
    [destruct (heat_category_from_wbgt_f _) |];
    destruct (recommend_uniform_option_a _ _ _ _ _); reflexivity.
Qed.

Lemma analysis_override_range :
  precip_override_of a = None
  \/ precip_override_of a = Some "NO OUTDOOR TRAINING"
  \/ precip_override_of a = Some "NO OUTDOOR_TRAINING".
Proof.
  pose proof analysis_condition as E.
  pose proof (interpret_condition_invariants_aux (Some weather_text)) as I.
  fold cond in I. rewrite <- E in I. cbn [snd] in I.
  destruct (precip_override_of a) as [s |]; [| now left].
  destruct (I s eq_refl) as [-> | ->]; auto.
Qed.

End AnalysisFacts.

(** X16. In the analysis of an observation the wind chill and the heat
    category never both apply: the wind chill is present exactly for a
    temperature of at most 50 with wind above 3, the heat number exactly
    for a temperature above 50. *)
Theorem analysis_heat_and_cold_exclusive :
  forall (parse_float : string -> option R) (cold_label : string)
         (temp_f temp_c rh wind_mph : R) (sunny : bool)
         (weather_text : string),
    let a := observation_analysis parse_float cold_label temp_f temp_c rh
               wind_mph sunny weather_text in
    (wc_of a <> None <-> temp_f <= 50 /\ 3 < wind_mph)
    /\ (heat_num_of a <> None <-> 50 < temp_f)
    /\ (wbgt_applicable_of a = true <-> 50 < temp_f)
    /\ (wc_of a <> None -> heat_num_of a = None).
Proof.
  intros parse label temp temp_c rh wind sunny text a. subst a.
  rewrite analysis_wc, analysis_heat_num, analysis_applicable.
  unfold wind_chill_f, WBGT_CUTOFF_F.
  cases_on_order; simpl; repeat split; intros; try congruence; try lra.
Qed.

(** X17. The decision of an analysis is one of ten strings, and its icon
    sorts them: red for the overrides, the two colder cold decisions and
    the black flag; yellow for the three LIMIT decisions; green for
    training with caution and for no restrictions. *)
Theorem analysis_decision_and_icon :
  forall (parse_float : string -> option R) (cold_label : string)
         (temp_f temp_c rh wind_mph : R) (sunny : bool)
         (weather_text : string),
    let a := observation_analysis parse_float cold_label temp_f temp_c rh
               wind_mph sunny weather_text in
    In (final_dec_of a) (stop_decisions ++ limit_decisions ++ go_decisions)
    /\ (status_icon_of a = "🔴" <-> In (final_dec_of a) stop_decisions)
    /\ (status_icon_of a = "🟡" <-> In (final_dec_of a) limit_decisions)
    /\ (status_icon_of a = "🟢" <-> In (final_dec_of a) go_decisions).
Proof.
  intros parse label temp temp_c rh wind sunny text a.
  assert (R : In (final_dec_of a)
                 (stop_decisions ++ limit_decisions ++ go_decisions)).
  { subst a. rewrite analysis_final_dec.
    apply final_training_decision_range, analysis_override_range. }
  split; [exact R |].
  replace (status_icon_of a) with (get_status_color (final_dec_of a))
    by (subst a; symmetry; apply analysis_status_icon).
  destruct (get_status_color_by_class (final_dec_of a)) as (Hs & Hl & Hg).
  apply in_app_or in R. destruct R as [R | R];
    [| apply in_app_or in R; destruct R as [R | R]].
  - rewrite (Hs R). repeat split; intros H; try discriminate H; try exact R.
    + exfalso. revert R H. unfold stop_decisions, limit_decisions. simpl.
      intuition congruence.
    + exfalso. revert R H. unfold stop_decisions, go_decisions. simpl.
      intuition congruence.
  - rewrite (Hl R). repeat split; intros H; try discriminate H; try exact R.
    + exfalso. revert R H. unfold stop_decisions, limit_decisions. simpl.
      intuition congruence.
    + exfalso. revert R H. unfold limit_decisions, go_decisions. simpl.
      intuition congruence.
  - rewrite (Hg R). repeat split; intros H; try discriminate H; try exact R.
    + exfalso. revert R H. unfold stop_decisions, go_decisions. simpl.
      intuition congruence.
    + exfalso. revert R H. unfold limit_decisions, go_decisions. simpl.
      intuition congruence.
Qed.

Lemma final_training_decision_cold_lemma temp wind_chill wc heat app pl :
  wind_chill = Some wc -> wc <= -20 ->
  final_training_decision temp wind_chill heat app None pl
  = "NO OUTDOOR TRAINING — EXTREME COLD".
Proof.
  intros -> H. unfold final_training_decision. cbn [truthy]. order_cases.
Qed.

Ltac analysis_core :=
  match goal with
  | |- context [observation_analysis ?p ?l ?t ?c ?r ?w ?s ?x] =>
      let a := fresh "a" in
      let U := fresh "U" in
      let O := fresh "O" in
      pose proof (analysis_uniform p l t c r w s x) as U;
      pose proof (analysis_override_range p l t c r w s x) as O;
      rewrite (analysis_final_dec p l t c r w s x);
      rewrite (analysis_wc p l t c r w s x) in *;
      rewrite (analysis_applicable p l t c r w s x) in *;
      rewrite (analysis_heat_num p l t c r w s x) in *;
      unfold wind_chill_f, WBGT_CUTOFF_F in *
  end.

(** X18. In an analysis the duty uniform goes with the decision: each
    cold decision comes with its cold-weather uniform and each heat
    decision with its heat uniform, at the matching level. *)
Theorem analysis_uniform_matches_decision :
  forall (parse_float : string -> option R) (cold_label : string)
         (temp_f temp_c rh wind_mph : R) (sunny : bool)
         (weather_text : string),
    let a := observation_analysis parse_float cold_label temp_f temp_c rh
               wind_mph sunny weather_text in
    let uniform := (uniform_of a, uniform_level_of a) in
    (final_dec_of a = "NO OUTDOOR TRAINING — EXTREME COLD" ->
     uniform = ("Arctic clothing / extreme cold gear. No exposed skin. No outdoor training.", 3%Z))
    /\ (final_dec_of a = "MOVE TRAINING INDOORS / HIGH COLD RISK" ->
        uniform = ("Parka + layered clothing + gloves + balaclava. Move indoors for prolonged training.", 2%Z))
    /\ (final_dec_of a
        = "LIMIT OUTDOOR TRAINING / USE INDOORS WHEN POSSIBLE (COLD CAUTION)" ->
        uniform = ("OCP + parka + gloves + warm layers. Limit prolonged exposed activities.", 2%Z))
    /\ (final_dec_of a = "NO OUTDOOR TRAINING — EXTREME HEAT (BLACK FLAG)" ->
        uniform = ("Light clothing only; no armor; full hydration and move indoors", 3%Z))
    /\ (final_dec_of a
        = "LIMIT OUTDOOR TRAINING / USE INDOORS WHEN POSSIBLE (HEAT)" ->
        uniform = ("Light OCP/PT, reduce load, hydrate frequently", 2%Z))
    /\ (final_dec_of a = "TRAIN OUTDOORS WITH CAUTION (HEAT)" ->
        uniform = ("OCP, consider modified load and frequent water breaks", 1%Z)).
Proof.
  intros parse label temp temp_c rh wind sunny text a uniform.
  subst uniform a. analysis_core. rewrite U. clear U.
  set (h := snd (heat_category_from_wbgt_f _)). clearbody h.
  set (pl := precip_level_of _). clearbody pl.
  unfold final_training_decision, recommend_uniform_option_a.
  destruct (50 <? temp) eqn:Ht; destruct (wind <=? 3) eqn:Hw;
    cbn [orb andb];
    destruct O as [-> | [-> | ->]];
    cbn [truthy String.eqb negb Ascii.eqb Bool.eqb];
    repeat split; intros E; try discriminate E;
    revert E; cases_on_order; cbn [orb andb];
    destruct (String.eqb pl "high"); int_cases;
    intros E; try discriminate E; try reflexivity; try lra; try lia.
Qed.

Lemma extreme_cold_example :
  final_dec_of (observation_analysis (fun _ => None) "Cold" (-30)
                  (f_to_c (-30)) 50 30 true "clear sky")
  = "NO OUTDOOR TRAINING — EXTREME COLD".
Proof.
  rewrite analysis_final_dec, analysis_wc, analysis_applicable.
  assert (C := analysis_condition (fun _ => None) "Cold" (-30)
                 (f_to_c (-30)) 50 30 true "clear sky").
  injection C as _ _ ->.
  apply final_training_decision_cold_lemma
    with (wc := wind_chill_formula (-30) 30).
  - apply wind_chill_f_Some; lra.
  - unfold wind_chill_formula.
    pose proof (Rpower_wind_lower_bound 30 ltac:(lra)). nra.
Qed.

Lemma analysis_uniform_matches_decision_witness :
  uniform_level_of (observation_analysis (fun _ => None) "Cold" (-30)
                      (f_to_c (-30)) 50 30 true "clear sky") = 3%Z.
Proof.
  pose proof (proj1 (analysis_uniform_matches_decision (fun _ => None)
                       "Cold" (-30) (f_to_c (-30)) 50 30 true "clear sky")
                extreme_cold_example) as U.
  injection U as _ U. exact U.
Defined.

(** X19. Cold without wind goes unnoticed: at 33 degrees or less with a
    wind of at most 3 mph there is no wind chill, so with a text that
    brings neither an override nor a high level the analysis recommends
    the standard uniform at level 0 and unrestricted training, shown
    green, however low the temperature. *)
Theorem calm_cold_is_unrestricted :
  forall (parse_float : string -> option R) (cold_label : string)
         (temp_f temp_c rh wind_mph : R) (sunny : bool)
         (weather_text : string),
    temp_f <= 33 -> wind_mph <= 3 ->
    snd (interpret_condition (Some weather_text)) = None ->
    fst (fst (interpret_condition (Some weather_text))) <> "high" ->
    let a := observation_analysis parse_float cold_label temp_f temp_c rh
               wind_mph sunny weather_text in
    wc_of a = None
    /\ (uniform_of a, uniform_level_of a) = ("Standard OCP/PT uniform", 0%Z)
    /\ final_dec_of a = "TRAIN OUTDOORS (NO RESTRICTIONS)"
    /\ status_icon_of a = "🟢".
Proof.
  intros parse label temp temp_c rh wind sunny text HT HV Hov Hlvl a.
  subst a.
  pose proof (analysis_condition parse label temp temp_c rh wind sunny text)
    as C.
  rewrite analysis_status_icon. analysis_core. rewrite U. clear U O.
  rewrite <- C in Hov, Hlvl. cbn [fst snd] in Hov, Hlvl.
  rewrite Hov. apply String.eqb_neq in Hlvl.
  unfold final_training_decision, recommend_uniform_option_a.
  rewrite Hlvl. cbn [truthy].
  assert (H50 : (50 <? temp) = false) by (apply Rltb_ge; lra).
  assert (H3 : (wind <=? 3) = true) by (apply Rleb_le; exact HV).
  assert (H33 : (33 <? temp) = false) by (apply Rltb_ge; exact HT).
  rewrite H50, H3, H33. cbn [orb andb]. rewrite andb_false_r.
  repeat split.
Qed.

Lemma calm_cold_is_unrestricted_witness :
  let a := observation_analysis (fun _ => None) "N/A (cold)" (-30)
             (f_to_c (-30)) 60 2 true "Clear Sky" in
  final_dec_of a = "TRAIN OUTDOORS (NO RESTRICTIONS)"
  /\ uniform_level_of a = 0%Z.
Proof.
  intros a.
  destruct (calm_cold_is_unrestricted (fun _ => None) "N/A (cold)" (-30)
              (f_to_c (-30)) 60 2 true "Clear Sky")
    as (_ & U & D & _);
    [lra | lra | reflexivity | discriminate |].
  split; [exact D |]. injection U as _ U. exact U.
Defined.

(** X20. In an analysis a heat decision needs a temperature above 50, and
    a cold decision a temperature of at most 50 with wind above 3. *)
Theorem analysis_decision_follows_temperature :
  forall (parse_float : string -> option R) (cold_label : string)
         (temp_f temp_c rh wind_mph : R) (sunny : bool)
         (weather_text : string),
    let a := observation_analysis parse_float cold_label temp_f temp_c rh
               wind_mph sunny weather_text in
    (In (final_dec_of a)
        [ "NO OUTDOOR TRAINING — EXTREME HEAT (BLACK FLAG)";
          "LIMIT OUTDOOR TRAINING / USE INDOORS WHEN POSSIBLE (HEAT)";
          "TRAIN OUTDOORS WITH CAUTION (HEAT)" ] ->
     50 < temp_f)
    /\ (In (final_dec_of a)
           [ "NO OUTDOOR TRAINING — EXTREME COLD";
             "MOVE TRAINING INDOORS / HIGH COLD RISK";
             "LIMIT OUTDOOR TRAINING / USE INDOORS WHEN POSSIBLE (COLD CAUTION)" ] ->
        temp_f <= 50 /\ 3 < wind_mph).
Proof.
  intros parse label temp temp_c rh wind sunny text a. subst a.
  analysis_core. clear U.
  set (h := snd (heat_category_from_wbgt_f _)). clearbody h.
  set (pl := precip_level_of _). clearbody pl.
  unfold final_training_decision.
  destruct (50 <? temp) eqn:Ht; destruct (wind <=? 3) eqn:Hw;
    cbn [orb andb];
    apply Rltb_lt in Ht || apply Rltb_ge in Ht;
    apply Rleb_le in Hw || apply Rleb_gt in Hw;
    destruct O as [-> | [-> | ->]];
    cbn [truthy String.eqb negb Ascii.eqb Bool.eqb];
    (split; intros E; [try exact Ht | try (split; assumption)]);
    exfalso; revert E; cases_on_order; cbn [orb andb];
    destruct (String.eqb pl "high"); int_cases; simpl;
    intuition discriminate.
Qed.

Lemma analysis_decision_follows_temperature_witness :
  let a := observation_analysis (fun _ => None) "Cold" (-30) (f_to_c (-30))
             50 30 true "clear sky" in
  (-30 <= 50 /\ 3 < 30).
Proof.
  intros a.
  apply (proj2 (analysis_decision_follows_temperature (fun _ => None)
                  "Cold" (-30) (f_to_c (-30)) 50 30 true "clear sky")).
  left. symmetry. exact extreme_cold_example.
Defined.

(* ================================================================= *)
(** ** The daily aggregation of [fetch_forecast] *)

(** *** Dictionaries *)

Lemma dict_get_set_same {V : Type} k (v : V) d :
  dict_get k (dict_set k v d) = Some v.
Proof.
  induction d as [| [k' v'] d IH]; simpl.
  - now rewrite String.eqb_refl.
  - destruct (String.eqb_spec k' k) as [-> | N]; simpl.
    + now rewrite String.eqb_refl.
    + apply String.eqb_neq in N. now rewrite N.
Qed.

Lemma dict_get_set_other {V : Type} k k' (v : V) d :
  k' <> k -> dict_get k' (dict_set k v d) = dict_get k' d.
Proof.
  intros N. induction d as [| [k0 v0] d IH]; simpl.
  - destruct (String.eqb_spec k k'); [congruence | reflexivity].
  - destruct (String.eqb_spec k0 k) as [-> | N0]; simpl.
    + destruct (String.eqb_spec k k'); [congruence | reflexivity].
    + destruct (String.eqb_spec k0 k'); [reflexivity | exact IH].
Qed.

Lemma dict_keys_get {V : Type} k (d : dict V) :
  In k (dict_keys d) <-> dict_get k d <> None.
Proof.
  induction d as [| [k' v'] d IH]; simpl; [tauto |].
  destruct (String.eqb_spec k' k) as [-> | N].
  - split; [discriminate | auto].
  - rewrite <- IH. split; [intros [E | H]; [congruence | exact H] | auto].
Qed.

Lemma dict_keys_set {V : Type} k (v : V) d :
  dict_keys (dict_set k v d) =
    match dict_get k d with
    | Some _ => dict_keys d
    | None => (dict_keys d ++ [k])%list
    end.
Proof.
  induction d as [| [k' v'] d IH]; simpl; [reflexivity |].
  destruct (String.eqb_spec k' k) as [-> | N]; simpl; [reflexivity |].
  rewrite IH. destruct (dict_get k d); reflexivity.
Qed.

Lemma dict_keys_set_NoDup {V : Type} k (v : V) d :
  NoDup (dict_keys d) -> NoDup (dict_keys (dict_set k v d)).
Proof.
  intros H. rewrite dict_keys_set.
  destruct (dict_get k d) eqn:E; [exact H |].
  apply NoDup_app; [exact H | repeat constructor; intros [] | ].
  intros x Hx [<- | []]. apply dict_keys_get in Hx. congruence.
Qed.

(** *** Sorting and slicing *)

Lemma insert_sorted_In k x l : In x (insert_sorted k l) <-> x = k \/ In x l.
Proof.
  induction l as [| y l IH]; simpl; [intuition |].
  destruct (k <=? y)%string; simpl; [intuition | rewrite IH; intuition].
Qed.

Lemma py_sorted_In x l : In x (py_sorted l) <-> In x l.
Proof.
  induction l as [| y l IH]; simpl; [tauto |].
  rewrite insert_sorted_In, IH. intuition.
Qed.











Lemma firstn_In {A : Type} n (l : list A) x : In x (firstn n l) -> In x l.
Proof.
  revert l. induction n as [| n IH]; intros [| y l]; simpl; try tauto.
  intros [-> | H]; [now left | right; now apply IH].
Qed.


Lemma py_slice_to_prefix {A : Type} (n : Z) (l : list A) :
  exists m, py_slice_to n l = firstn m l
            /\ ((0 <= n)%Z -> m = Z.to_nat n).
Proof.
  unfold py_slice_to. destruct (Z.leb_spec 0 n).
  - eexists; split; [reflexivity | auto].
  - eexists; split; [reflexivity | lia].
Qed.

(** *** Sums, means and maxima *)



Lemma py_mean_nonempty l : l <> [] -> exists m, py_mean l = inr m.
Proof.
  destruct l; [congruence |]. intros _. eexists. reflexivity.
Qed.





(** *** What one day's value holds *)

(** The value a list of items builds up, from the empty one. *)
Definition day_of (l : list forecast_item) : day_data :=
  List.fold_left (fun d it => add_item it d) l empty_day.

Definition rain_of (it : forecast_item) : R := or_zero (item_rain_3h it).
Definition snow_of (it : forecast_item) : R := or_zero (item_snow_3h it).

Lemma fold_add_item_fields l d :
  let d' := List.fold_left (fun d it => add_item it d) l d in
  dd_temps d' = (dd_temps d ++ List.map item_temp l)%list
  /\ dd_humidity d' = (dd_humidity d ++ List.map item_humidity l)%list
  /\ dd_wind d' = (dd_wind d ++ List.map item_wind l)%list
  /\ dd_conditions d'
     = (dd_conditions d ++ List.map item_description l)%list
  /\ dd_rain d' = List.fold_left Rplus (List.map rain_of l) (dd_rain d)
  /\ dd_snow d' = List.fold_left Rplus (List.map snow_of l) (dd_snow d).
Proof.
  revert d. induction l as [| it l IH]; intros d; cbn [List.fold_left List.map].
  - cbv zeta. rewrite !app_nil_r. repeat split.
  - cbv zeta. destruct (IH (add_item it d)) as (H1 & H2 & H3 & H4 & H5 & H6).
    rewrite H1, H2, H3, H4, H5, H6. cbn [add_item dd_temps dd_humidity dd_wind
      dd_conditions dd_rain dd_snow].
    rewrite <- !app_assoc. repeat split.
Qed.

Lemma day_of_fields l :
  dd_temps (day_of l) = List.map item_temp l
  /\ dd_humidity (day_of l) = List.map item_humidity l
  /\ dd_wind (day_of l) = List.map item_wind l
  /\ dd_conditions (day_of l) = List.map item_description l
  /\ dd_rain (day_of l) = py_sum (List.map rain_of l)
  /\ dd_snow (day_of l) = py_sum (List.map snow_of l).
Proof. exact (fold_add_item_fields l empty_day). Qed.

Lemma day_of_snoc l it : day_of (l ++ [it]) = add_item it (day_of l).
Proof. unfold day_of. now rewrite fold_left_app. Qed.

Section FetchForecastFacts.

Variable date_key_of : Z -> string.
Variable set_of : list string -> list string.

(** A set holds the elements of the list it was built from; in which
    order it yields them is left open. *)
Hypothesis set_of_elements : forall l x, In x (set_of l) <-> In x l.

(** The items of the list that fall on a date, in list order. *)
Definition items_on (date_key : string) (items : list forecast_item)
  : list forecast_item :=
  List.filter (fun it => (date_key_of (item_dt it) =? date_key)%string) items.

Definition day_opt (l : list forecast_item) : option day_data :=
  match l with
  | [] => None
  | _ => Some (day_of l)
  end.

(** The dictionary after the items [seen]: one key per date met, holding
    what the items of that date build up. *)
Definition agrees (d : dict day_data) (seen : list forecast_item) : Prop :=
  NoDup (dict_keys d)
  /\ forall k, dict_get k d = day_opt (items_on k seen).

Lemma items_on_snoc k seen it :
  items_on k (seen ++ [it]) =
    (items_on k seen
     ++ (if (date_key_of (item_dt it) =? k)%string then [it] else []))%list.
Proof. unfold items_on. rewrite filter_app. reflexivity. Qed.

Lemma day_opt_snoc l it : day_opt (l ++ [it]) = Some (add_item it (day_of l)).
Proof.
  unfold day_opt. rewrite <- day_of_snoc. destruct l; reflexivity.
Qed.

Lemma accumulate_agrees d seen it :
  agrees d seen ->
  exists d', accumulate date_key_of d it = inr d'
             /\ agrees d' (seen ++ [it]).
Proof.
  intros [Hn Hg]. unfold accumulate.
  set (key := date_key_of (item_dt it)).
  destruct (dict_get key d) as [v |] eqn:E.
  - unfold dict_item. rewrite E. cbn [bind]. eexists. split; [reflexivity |].
    split; [now apply dict_keys_set_NoDup |].
    intros k. rewrite items_on_snoc. fold key.
    destruct (String.eqb_spec key k) as [<- | N].
    + rewrite dict_get_set_same, day_opt_snoc. rewrite Hg in E.
      unfold day_opt in E. destruct (items_on key seen); [discriminate |].
      now inversion E.
    + rewrite dict_get_set_other by congruence. rewrite app_nil_r. apply Hg.
  - unfold dict_item. rewrite dict_get_set_same. cbn [bind].
    eexists. split; [reflexivity |].
    split; [now apply dict_keys_set_NoDup, dict_keys_set_NoDup |].
    intros k. rewrite items_on_snoc. fold key.
    destruct (String.eqb_spec key k) as [<- | N].
    + rewrite dict_get_set_same, day_opt_snoc. rewrite Hg in E.
      unfold day_opt in E. destruct (items_on key seen); [| discriminate].
      reflexivity.
    + rewrite !dict_get_set_other by congruence. rewrite app_nil_r. apply Hg.
Qed.

Lemma accumulate_all_agrees items : forall d seen,
  agrees d seen ->
  exists d', accumulate_all date_key_of d items = inr d'
             /\ agrees d' (seen ++ items).
Proof.
  induction items as [| it items IH]; intros d seen H.
  - exists d. rewrite app_nil_r. split; [reflexivity | exact H].
  - destruct (accumulate_agrees d seen it H) as (d1 & E1 & H1).
    destruct (IH d1 (seen ++ [it])%list H1) as (d' & E' & H').
    exists d'. cbn [accumulate_all]. rewrite E1. cbn [bind].
    rewrite <- app_assoc in H'. split; assumption.
Qed.

Lemma accumulate_all_from_empty items :
  exists d, accumulate_all date_key_of [] items = inr d /\ agrees d items.
Proof.
  apply (accumulate_all_agrees items [] []).
  split; [constructor | reflexivity].
Qed.



(** What [summarize] returns for a date that has items. *)
Lemma summarize_day d k l :
  dict_get k d = Some (day_of l) -> l <> [] ->
  exists fd,
    summarize set_of d k = inr fd
    /\ fd_date fd = k
    /\ py_mean (List.map item_temp l) = inr (fd_avgtemp_f fd)
    /\ fd_avgtemp_c fd = f_to_c (fd_avgtemp_f fd)
    /\ py_mean (List.map item_humidity l) = inr (fd_avghumidity fd)
    /\ py_max_list (List.map item_wind l) = inr (fd_maxwind_mph fd)
    /\ fd_daily_chance_of_rain fd
       = (if 0 <? py_sum (List.map rain_of l) then 100 else 0)
    /\ fd_daily_chance_of_snow fd
       = (if 0 <? py_sum (List.map snow_of l) then 100 else 0)
    /\ exists text,
         py_max_by (count_occ string_dec (List.map item_description l))
           (set_of (List.map item_description l)) = inr text
         /\ fd_condition_text fd = title text.
Proof.
  intros E Hl. unfold summarize, dict_item. rewrite E. cbn [bind].
  destruct (day_of_fields l) as (H1 & H2 & H3 & H4 & H5 & H6).
  rewrite H1, H2, H3, H4, H5, H6.
  destruct l as [| it l]; [congruence |].
  destruct (set_of (List.map item_description (it :: l))) as [| c cs] eqn:S.
  { exfalso. assert (H : In (item_description it) []).
    { rewrite <- S. apply set_of_elements. now left. }
    destruct H. }
  cbn [List.map py_mean py_max_list py_max_by bind].
  eexists. split; [reflexivity |]. cbn.
  repeat split. eexists. split; reflexivity.
Qed.

Lemma summarize_all_days d items keys :
  agrees d items ->
  (forall k, In k keys -> In k (dict_keys d)) ->
  exists fds,
    summarize_all set_of d keys = inr fds
    /\ List.map fd_date fds = keys
    /\ forall fd, In fd fds -> summarize set_of d (fd_date fd) = inr fd.
Proof.
  intros Ha. induction keys as [| k keys IH]; intros Hk.
  - exists []. repeat split. intros fd [].
  - destruct (IH (fun x Hx => Hk x (or_intror Hx))) as (fds & E & Hm & Hs).
    assert (Hin : In k (dict_keys d)) by (apply Hk; now left).
    destruct Ha as [Hn Hg].
    assert (Hl : items_on k items <> []).
    { apply dict_keys_get in Hin. rewrite Hg in Hin. unfold day_opt in Hin.
      destruct (items_on k items); congruence. }
    assert (Eg : dict_get k d = Some (day_of (items_on k items))).
    { rewrite Hg. unfold day_opt. destruct (items_on k items); congruence. }
    destruct (summarize_day d k _ Eg Hl) as (fd & Es & Hd & _).
    exists (fd :: fds). cbn [summarize_all]. rewrite Es, E. cbn [bind].
    repeat split.
    + cbn. now rewrite Hd, Hm.
    + intros fd' [<- | H']; [now rewrite Hd | now apply Hs].
Qed.

Lemma fetch_forecast_days_inv items days :
  exists d fds,
    agrees d items
    /\ fetch_forecast_days date_key_of set_of items days = inr fds
    /\ List.map fd_date fds = py_slice_to days (py_sorted (dict_keys d))
    /\ forall fd, In fd fds -> summarize set_of d (fd_date fd) = inr fd.
Proof.
  destruct (accumulate_all_from_empty items) as (d & E & Ha).
  destruct (py_slice_to_prefix days (py_sorted (dict_keys d)))
    as (m & Em & _).
  destruct (summarize_all_days d items
              (py_slice_to days (py_sorted (dict_keys d))) Ha)
    as (fds & Es & Hm & Hs).
  { intros k Hk. rewrite Em in Hk. apply firstn_In in Hk.
    exact (proj1 (py_sorted_In _ _) Hk). }
  exists d, fds. unfold fetch_forecast_days. rewrite E. cbn [bind].
  split; [exact Ha |]. split; [exact Es |]. split; [exact Hm | exact Hs].
Qed.

Lemma fetch_forecast_days_day items days fds fd :
  fetch_forecast_days date_key_of set_of items days = inr fds ->
  In fd fds ->
  exists d,
    dict_get (fd_date fd) d = Some (day_of (items_on (fd_date fd) items))
    /\ items_on (fd_date fd) items <> []
    /\ summarize set_of d (fd_date fd) = inr fd.
Proof.
  intros E Hfd.
  destruct (fetch_forecast_days_inv items days)
    as (d & fds' & Ha & E' & Hm & Hs).
  rewrite E in E'. injection E' as <-.
  exists d.
  assert (Hin : In (fd_date fd) (dict_keys d)).
  { assert (H : In (fd_date fd) (List.map fd_date fds))
      by (now apply in_map).
    rewrite Hm in H.
    destruct (py_slice_to_prefix days (py_sorted (dict_keys d)))
      as (m & Em & _).
    rewrite Em in H. apply firstn_In in H. exact (proj1 (py_sorted_In _ _) H). }
  destruct Ha as [Hn Hg].
  apply dict_keys_get in Hin. rewrite Hg in Hin |- *. unfold day_opt in *.
  destruct (items_on (fd_date fd) items) eqn:El; [congruence |].
  repeat split; [discriminate |]. now apply Hs.
Qed.



(** X23. A chance of rain or snow is 100 when the amounts of the date add
    up to more than zero and 0 otherwise, and the analysis of a forecast
    day takes the day for sunny exactly when both sums are at most zero:
    the cloud cover plays no part. *)
Theorem forecast_day_sunny_iff_dry :
  forall (items : list forecast_item) (days : Z)
         (fds : list forecast_day) (fd : forecast_day),
    fetch_forecast_days date_key_of set_of items days = inr fds ->
    In fd fds ->
    let l := items_on (fd_date fd) items in
    let rain := py_sum (List.map rain_of l) in
    let snow := py_sum (List.map snow_of l) in
    fd_daily_chance_of_rain fd = (if 0 <? rain then 100 else 0)
    /\ fd_daily_chance_of_snow fd = (if 0 <? snow then 100 else 0)
    /\ ((py_max (fd_daily_chance_of_rain fd) (fd_daily_chance_of_snow fd)
          <? 30) = true
        <-> rain <= 0 /\ snow <= 0)
    /\ forall parse_float,
         forecast_day_analysis parse_float (fd_avgtemp_f fd)
           (fd_avgtemp_c fd) (fd_avghumidity fd) (fd_maxwind_mph fd)
           (fd_daily_chance_of_rain fd) (fd_daily_chance_of_snow fd)
           (fd_condition_text fd)
         = observation_analysis parse_float "Cold" (fd_avgtemp_f fd)
             (f_to_c (fd_avgtemp_f fd)) (fd_avghumidity fd)
             (fd_maxwind_mph fd)
             (negb (0 <? rain) && negb (0 <? snow))
             (fd_condition_text fd).
Proof.
  intros items days fds fd E Hfd l rain snow.
  destruct (fetch_forecast_days_day items days fds fd E Hfd)
    as (d & Eg & Hl & Es).
  destruct (summarize_day d (fd_date fd) l Eg Hl)
    as (fd' & Es' & _ & _ & Hc & _ & _ & Hr & Hs & _).
  rewrite Es in Es'. injection Es' as <-.
  fold rain in Hr. fold snow in Hs.
  assert (Hflag : (py_max (fd_daily_chance_of_rain fd)
                     (fd_daily_chance_of_snow fd) <? 30)
                  = negb (0 <? rain) && negb (0 <? snow)).
  { rewrite Hr, Hs. unfold py_max.
    destruct (0 <? rain), (0 <? snow);
      repeat match goal with
        | |- context [?a <? ?b] =>
            (rewrite (proj2 (Rltb_lt a b)) by lra)
            || (rewrite (proj2 (Rltb_ge a b)) by lra)
        end; reflexivity. }
  split; [exact Hr |]. split; [exact Hs |]. split.
  - rewrite Hflag, andb_true_iff, !negb_true_iff, !Rltb_ge. reflexivity.
  - intros parse. unfold forecast_day_analysis. rewrite Hflag, Hc.
    reflexivity.
Qed.


End FetchForecastFacts.

(** *** A two-day list to run the aggregation on *)

Definition example_date_key (dt : Z) : string :=
  if (dt <? 86400)%Z then "1970-01-01" else "1970-01-02".

Definition example_items : list forecast_item :=
  [ {| item_dt := 0; item_temp := 40; item_humidity := 50; item_wind := 5;
       item_rain_3h := None; item_snow_3h := None;
       item_description := "clear sky" |};
    {| item_dt := 10800; item_temp := 50; item_humidity := 60;
       item_wind := 12; item_rain_3h := Some 1.5; item_snow_3h := None;
       item_description := "light rain" |};
    {| item_dt := 21600; item_temp := 45; item_humidity := 70;
       item_wind := 8; item_rain_3h := Some 0.5; item_snow_3h := None;
       item_description := "light rain" |};
    {| item_dt := 90000; item_temp := 30; item_humidity := 80;
       item_wind := 20; item_rain_3h := None; item_snow_3h := None;
       item_description := "overcast clouds" |} ].

Definition example_set (l : list string) : list string := l.

Lemma example_set_elements l x : In x (example_set l) <-> In x l.
Proof. reflexivity. Qed.

(** The first day the aggregation returns for the example. *)
Lemma example_first_day :
  exists fd fds,
    fetch_forecast_days example_date_key example_set example_items 7
    = inr (fd :: fds)
    /\ fd_date fd = "1970-01-01".
Proof.
  eexists. eexists. split.
  - unfold fetch_forecast_days, example_items. cbn. reflexivity.
  - reflexivity.
Qed.



Lemma forecast_day_sunny_iff_dry_witness :
  exists fd fds,
    fetch_forecast_days example_date_key example_set example_items 7
    = inr (fd :: fds)
    /\ fd_daily_chance_of_rain fd = 100.
Proof.
  destruct example_first_day as (fd & fds & E & D).
  exists fd, fds. split; [exact E |].
  destruct (forecast_day_sunny_iff_dry example_date_key example_set
              example_set_elements example_items 7 (fd :: fds) fd E
              (or_introl eq_refl))
    as (Hr & _).
  rewrite Hr, D. cbn. unfold py_sum. cbn.
  rewrite (proj2 (Rltb_lt _ _)) by lra. reflexivity.
Defined.


(* ================================================================= *)
(** ** End to end *)

(** X25. A condition text with an occurrence of "thunder", "storm",
    "freezing rain", "sleet", "ice" or "icy", in any letter case, stops
    training in the analysis of the observation whatever the temperature,
    humidity, wind and sun: the decision is "NO OUTDOOR TRAINING" and its
    icon is red. *)
Theorem analysis_extreme_text_stops_training :
  forall (parse_float : string -> option R) (cold_label : string)
         (temp_f temp_c rh wind_mph : R) (sunny : bool)
         (pre w suf : string),
    In (lower w) ["thunder"; "storm"; "freezing rain"; "sleet"; "ice"; "icy"] ->
    let a := observation_analysis parse_float cold_label temp_f temp_c rh
               wind_mph sunny (pre ++ w ++ suf) in
    precip_level_of a = "extreme"
    /\ final_dec_of a = "NO OUTDOOR TRAINING"
    /\ status_icon_of a = "🔴".
Proof.
  intros parse label temp temp_c rh wind sunny pre w suf H a.
  assert (E : fst (fst (interpret_condition (Some (pre ++ w ++ suf))))
              = "extreme"
              /\ snd (interpret_condition (Some (pre ++ w ++ suf)))
                 = Some "NO OUTDOOR TRAINING").
  { apply interpret_condition_extreme_rules. rewrite lowered_text_app.
    simpl in H.
    destruct H as [<- | [<- | [<- | [<- | [<- | [<- | []]]]]]];
      rewrite str_in_app; rewrite ?orb_true_r; reflexivity. }
  pose proof (analysis_condition parse label temp temp_c rh wind sunny
                (pre ++ w ++ suf)) as C.
  fold a in C. rewrite <- C in E. cbn [fst snd] in E. destruct E as [E1 E2].
  assert (D : final_dec_of a = "NO OUTDOOR TRAINING").
  { subst a. rewrite analysis_final_dec, E2. reflexivity. }
  split; [exact E1 |]. split; [exact D |].
  subst a. rewrite analysis_status_icon, D. reflexivity.
Qed.

Lemma analysis_extreme_text_stops_training_witness :
  final_dec_of (observation_analysis (fun _ => None) "N/A (cold)" 72
                  (f_to_c 72) 40 5 true "Severe Thunderstorms Expected")
  = "NO OUTDOOR TRAINING".
Proof.
  apply (analysis_extreme_text_stops_training (fun _ => None) "N/A (cold)"
           72 (f_to_c 72) 40 5 true "Severe " "Thunder" "storms Expected").
  left. reflexivity.
Defined.

Lemma nan_ltb_r x y : is_nan x = true -> PrimFloat.ltb y x = false.
Proof.
  intros H. rewrite ltb_spec, (is_nan_Prim2SF x H).
  unfold SFltb. destruct (Prim2SF y); reflexivity.
Qed.

(** X26. On binary64 floats a NaN temperature, which [float()] accepts,
    falls through every PT-uniform band to the coldest string, the one
    with gloves. *)
Theorem recommend_pt_uniform_nan_is_coldest :
  forall t : float,
    is_nan t = true ->
    Binary64.recommend_pt_uniform (Returns t) = pt_gloves.
Proof.
  intros t H. unfold Binary64.recommend_pt_uniform.
  rewrite (nan_ltb_r t _ H), !(nan_leb_r t _ H). reflexivity.
Qed.

Lemma recommend_pt_uniform_nan_is_coldest_witness :
  Binary64.recommend_pt_uniform (Returns nan) = pt_gloves.
Proof.
  apply (recommend_pt_uniform_nan_is_coldest nan). reflexivity.
Defined.
